(** * dz_python: supplier / product / order ledger with an ODT report

    A shallow embedding of [dz_python.py].  The Python program keeps four
    SQLAlchemy tables in an SQLite file, fills them with a fixed sample
    (one supplier, three products, two orders of two items each), lists the
    orders and exports them to an OpenDocument text.

    Conventions of the embedding:
    - a Python [float] is a primitive binary64 float, [==] on floats is
      [PrimFloat.eqb];
    - a Python [int] is a [Z], a [str] is a [string] (of UTF-8 bytes);
    - the program's effects (the database file, the random source behind
      [uuid.uuid4], the wall clock behind [datetime.utcnow], standard output
      and the files written) are the fields of [World]; a method is a
      function from worlds to a result and a world, and a Python exception
      is the [Raise] result. *)

From Stdlib Require Import ZArith Ascii String DecimalString Floats Lia Sorted.
From stdpp Require Import base option list strings gmap.

Local Open Scope Z_scope.

(* ===================================================================== *)
(** ** Python values *)
(* ===================================================================== *)

(** The exceptions the modelled code can raise. *)
Inductive exn : Type :=
| IntegrityError      (* a UNIQUE constraint failed at INSERT *)
| OperationalError    (* "no such table" *)
| OverflowError       (* "int too large to convert to float" *)
| AttributeError      (* attribute access on None *)
| TypeError.          (* None called as a function *)

Inductive Result (A : Type) : Type :=
| Raise (e : exn)
| Return (a : A).
Arguments Raise {A} e.
Arguments Return {A} a.

(** [float(n)] for a Python int: round to nearest even, [OverflowError]
    when the result is not finite. *)
Definition float_of_int (n : Z) : Result float :=
  let f := SF2Prim (binary_normalize prec emax n 0 false) in
  if PrimFloat.is_infinity f then Raise OverflowError else Return f.

(** [x * n] for a float [x] and an int [n]: the int is converted first. *)
Definition float_mul_int (x : float) (n : Z) : Result float :=
  match float_of_int n with
  | Raise e => Raise e
  | Return fn => Return (PrimFloat.mul x fn)
  end.

(** [n * x] for an int [n] and a float [x]. *)
Definition int_mul_float (n : Z) (x : float) : Result float :=
  match float_of_int n with
  | Raise e => Raise e
  | Return fn => Return (PrimFloat.mul fn x)
  end.

(** [sum(xs)] over floats: a left fold of [+] from the int [0], which the
    first addition converts to [0.0]. *)
Definition py_sum (xs : list float) : float :=
  fold_left PrimFloat.add xs 0%float.

(** [a == b] between results of float expressions. *)
Definition float_eq (a b : float) : bool := PrimFloat.eqb a b.

(* ===================================================================== *)
(** ** Order numbers *)
(* ===================================================================== *)

Module OrderNumber.

(** One lower-case hexadecimal digit, as ['%x'] prints it. *)
Definition hex_digit (d : Z) : ascii :=
  if d <? 10 then ascii_of_nat (Z.to_nat (48 + d))
  else ascii_of_nat (Z.to_nat (87 + d)).

(** The [n] lowest hexadecimal digits of [v], most significant first:
    ['%0nx' % v] for [0 <= v < 16^n]. *)
Fixpoint hex_digits (n : nat) (v : Z) : string :=
  match n with
  | O => EmptyString
  | S k => String (hex_digit (Z.shiftr v (4 * Z.of_nat k) mod 16))
                  (hex_digits k v)
  end.

(** [uuid.uuid4().int] from the 128 random bits [r] of [os.urandom(16)]:
    the variant bits are set to RFC 4122 and the version to 4. *)
Definition uuid4_int (r : Z) : Z :=
  let i := r mod 2 ^ 128 in
  let i := Z.land i (Z.lnot (Z.shiftl 0xc000 48)) in
  let i := Z.lor i (Z.shiftl 0x8000 48) in
  let i := Z.land i (Z.lnot (Z.shiftl 0xf000 64)) in
  Z.lor i (Z.shiftl 4 76).

(** [UUID.hex]: ['%032x' % self.int]. *)
Definition hex (uuid : Z) : string := hex_digits 32 uuid.

(** [str.upper] on one character (ASCII letters only occur here). *)
Definition upper_ascii (c : ascii) : ascii :=
  let n := nat_of_ascii c in
  if ((97 <=? n) && (n <=? 122))%nat then ascii_of_nat (n - 32) else c.

Fixpoint upper (s : string) : string :=
  match s with
  | EmptyString => EmptyString
  | String c t => String (upper_ascii c) (upper t)
  end.

(** [s[:n]]. *)
Fixpoint prefix (n : nat) (s : string) : string :=
  match n, s with
  | S k, String c t => String c (prefix k t)
  | _, _ => EmptyString
  end.

(** [generate_order_number()], for the uuid the random source yields. *)
Definition generate_order_number (uuid : Z) : string :=
  String.append "ORD-" (upper (prefix 8 (hex uuid))).

(** *** The pattern [ORD-[0-9A-F]{8}]

    A pattern without alternation or repetition of unknown length is a
    list of character classes; a string matches when it has one character
    per class, each in its class. *)
Definition char_class := ascii -> bool.

Definition lit (c : ascii) : char_class := fun x => Ascii.eqb x c.

Definition upper_hex : char_class := fun x =>
  let n := nat_of_ascii x in
  (((48 <=? n) && (n <=? 57)) || ((65 <=? n) && (n <=? 70)))%nat.

Fixpoint fullmatch (p : list char_class) (s : string) : bool :=
  match p, s with
  | [], EmptyString => true
  | cl :: p', String c t => cl c && fullmatch p' t
  | _, _ => false
  end.

Definition ORD_pattern : list char_class :=
  [lit "O"; lit "R"; lit "D"; lit "-"] ++ replicate 8 upper_hex.

End OrderNumber.

(* ===================================================================== *)
(** ** The data model (the declarative classes) *)
(* ===================================================================== *)

(** The identity of a Python object, and a [datetime] in microseconds. *)
Definition Ref := nat.
Definition datetime := Z.

(** [AbstractTable]: the columns every table shares.  They are assigned when
    a row is inserted: the key by the store, the two timestamps by the
    column default [datetime.utcnow]. *)
Module AbstractTable.
Record t := mk { id : Z; created_at : datetime; updated_at : datetime }.
End AbstractTable.

(** A persisted row of a class: the shared columns and the class's own. *)
Record Row (C : Type) := mkRow { base : AbstractTable.t; cols : C }.
Arguments mkRow {C} base cols.
Arguments base {C} r.
Arguments cols {C} r.

Definition row_id {C} (r : Row C) : Z := AbstractTable.id (base r).
Definition row_created_at {C} (r : Row C) : datetime :=
  AbstractTable.created_at (base r).

Module Supplier.
Record t := mk {
  name : string;
  contact_person : option string;
  email : option string;
  phone : option string;
  address : option string }.
End Supplier.

Module Product.
Record t := mk {
  name : string;
  description : option string;
  price : float;
  quantity : Z;
  supplier_id : option Z }.
Definition set_supplier_id (p : t) (k : option Z) : t :=
  mk (name p) (description p) (price p) (quantity p) k.
End Product.

Module Order.
Record t := mk {
  order_number : string;
  customer_name : string;
  customer_email : option string;
  customer_phone : option string;
  total_amount : float;
  status : string }.
Definition set_total_amount (o : t) (x : float) : t :=
  mk (order_number o) (customer_name o) (customer_email o)
     (customer_phone o) x (status o).
End Order.

Module OrderItem.
Record t := mk {
  order_id : option Z;
  product_id : option Z;
  quantity : Z;
  unit_price : float;
  total_price : float }.
Definition set_keys (i : t) (o p : option Z) : t :=
  mk o p (quantity i) (unit_price i) (total_price i).
End OrderItem.

(** An instance a constructor call has made, not yet flushed: its identity
    and its column attributes. *)
Record instance (C : Type) := mkInstance { ref : Ref; attrs : C }.
Arguments mkInstance {C} ref attrs.
Arguments ref {C} i.
Arguments attrs {C} i.

(** The objects a session can hold as pending.  The relationship attributes
    ([Product.supplier], [OrderItem.order], [OrderItem.product]) are the
    identities of the objects they point to. *)
Inductive Obj : Type :=
| NewSupplier (s : instance Supplier.t)
| NewProduct (p : instance Product.t) (supplier : Ref)
| NewOrder (o : instance Order.t)
| NewOrderItem (i : instance OrderItem.t) (order : Ref) (product : Ref).

Definition obj_ref (o : Obj) : Ref :=
  match o with
  | NewSupplier s => ref s
  | NewProduct p _ => ref p
  | NewOrder o => ref o
  | NewOrderItem i _ _ => ref i
  end.

(* ===================================================================== *)
(** ** The world the program runs in *)
(* ===================================================================== *)

(** The SQLite file: each of the four tables is absent or a list of rows in
    rowid order. *)
Record Store := mkStore {
  suppliers : option (list (Row Supplier.t));
  products : option (list (Row Product.t));
  orders : option (list (Row Order.t));
  order_items : option (list (Row OrderItem.t)) }.

Definition empty_store : Store := mkStore None None None None.

(** The rows of a table, none when the table is absent. *)
Definition rows {R} (table : option (list R)) : list R := default [] table.

Record Engine := mkEngine { url : string }.

Record sessionmaker := mkSessionmaker {
  autocommit : bool;
  autoflush : bool;
  bind : Engine }.

Record DatabaseConnection := mkDatabaseConnection {
  connection_string : string;
  engine : option Engine;
  SessionLocal : option sessionmaker }.

(** A session: the engine it is bound to and its pending objects, in the
    order they were added. *)
Record Session := mkSession { session_bind : Engine; new : list Obj }.

(** A paragraph of the text document ([odf.text.P]) with the texts added to
    it, and the document body as the list of its paragraphs. *)
Record P := mkP { texts : list string }.
Definition document := list P.

Record World := mkWorld {
  db : DatabaseConnection;      (* the one DatabaseConnection object *)
  store : Store;                (* the database it designates *)
  entropy : nat -> Z;           (* what os.urandom(16) yields, call by call *)
  clock : datetime;             (* the last reading of the wall clock *)
  ticks : nat -> N;             (* how far it advances before each reading *)
  next_ref : Ref;               (* the next object identity *)
  stdout : list string;         (* the lines printed *)
  files : gmap string document  (* the documents saved, by file name *) }.

Definition set_db (c : DatabaseConnection) (w : World) : World :=
  mkWorld c (store w) (entropy w) (clock w) (ticks w) (next_ref w) (stdout w) (files w).
Definition set_store (s : Store) (w : World) : World :=
  mkWorld (db w) s (entropy w) (clock w) (ticks w) (next_ref w) (stdout w) (files w).
Definition set_entropy (e : nat -> Z) (w : World) : World :=
  mkWorld (db w) (store w) e (clock w) (ticks w) (next_ref w) (stdout w) (files w).
Definition set_clock (t : datetime) (k : nat -> N) (w : World) : World :=
  mkWorld (db w) (store w) (entropy w) t k (next_ref w) (stdout w) (files w).
Definition set_next_ref (r : Ref) (w : World) : World :=
  mkWorld (db w) (store w) (entropy w) (clock w) (ticks w) r (stdout w) (files w).
Definition set_stdout (l : list string) (w : World) : World :=
  mkWorld (db w) (store w) (entropy w) (clock w) (ticks w) (next_ref w) l (files w).
Definition set_files (f : gmap string document) (w : World) : World :=
  mkWorld (db w) (store w) (entropy w) (clock w) (ticks w) (next_ref w) (stdout w) f.

(** A computation: from a world to a result (or an exception) and the world
    it leaves.  The world is kept when an exception is raised: what was
    printed or read from the clock stays so. *)
Definition M (A : Type) : Type := World -> Result A * World.

Definition ret {A} (a : A) : M A := fun w => (Return a, w).
Definition raise {A} (e : exn) : M A := fun w => (Raise e, w).
Definition and_then {A B} (m : M A) (k : A -> M B) : M B := fun w =>
  match m w with
  | (Raise e, w') => (Raise e, w')
  | (Return a, w') => k a w'
  end.
Definition lift {A} (r : Result A) : M A := fun w => (r, w).

Declare Scope py_scope.
Delimit Scope py_scope with py.
Notation "'let*' x ':=' m 'in' k" := (and_then m (fun x => k))
  (at level 10, x name, m at level 100, k at level 200) : py_scope.
Local Open Scope py_scope.

(** [print(line)]. *)
Definition print (line : string) : M unit := fun w =>
  (Return tt, set_stdout (stdout w ++ [line]) w).

(** A fresh object identity, for a constructor call. *)
Definition new_ref : M Ref := fun w =>
  (Return (next_ref w), set_next_ref (S (next_ref w)) w).

(** [uuid.uuid4().int]: consumes one reading of the random source. *)
Definition uuid4 : M Z := fun w =>
  (Return (OrderNumber.uuid4_int (entropy w O)),
   set_entropy (fun n => entropy w (S n)) w).

(** [datetime.utcnow()]: the clock has advanced by the next tick. *)
Definition utcnow : M datetime := fun w =>
  let t := clock w + Z.of_N (ticks w O) in
  (Return t, set_clock t (fun n => ticks w (S n)) w).

(* ===================================================================== *)
(** ** DatabaseConnection *)
(* ===================================================================== *)

(** [create_engine] and [sessionmaker] only record their arguments; nothing
    is opened until a statement runs. *)
Definition create_engine (connection_string : string) : Engine :=
  mkEngine connection_string.

(** [DatabaseConnection(connection_string)]: not connected yet. *)
Definition DatabaseConnection_init (connection_string : string)
  : DatabaseConnection :=
  mkDatabaseConnection connection_string None None.

(** [connect]: sets [self.engine] and [self.SessionLocal], returns the
    engine. *)
Definition connect : M Engine := fun w =>
  let self := db w in
  let e := create_engine (connection_string self) in
  (Return e,
   set_db (mkDatabaseConnection (connection_string self) (Some e)
             (Some (mkSessionmaker false false e))) w).

(** [get_session]: connects when [self.SessionLocal] is not set, then calls
    the session factory. *)
Definition get_session : M Session :=
  let* _ := (fun w => match SessionLocal (db w) with
                      | None => (let* _ := connect in ret tt) w
                      | Some _ => ret tt w
                      end) in
  fun w => match SessionLocal (db w) with
           | Some factory => ret (mkSession (bind factory) []) w
           | None => raise TypeError w
           end.

(** [Base.metadata.create_all]: each of the four tables is created, empty,
    when the database does not have it, and left as it is otherwise. *)
Definition create_all (s : Store) : Store :=
  mkStore (Some (rows (suppliers s))) (Some (rows (products s)))
          (Some (rows (orders s))) (Some (rows (order_items s))).

(** [create_tables]: connects when [self.engine] is not set, then creates
    the tables on it. *)
Definition create_tables : M unit :=
  let* _ := (fun w => match engine (db w) with
                      | None => (let* _ := connect in ret tt) w
                      | Some _ => ret tt w
                      end) in
  fun w => match engine (db w) with
           | Some _ => (Return tt, set_store (create_all (store w)) w)
           | None => raise AttributeError w
           end.

(* ===================================================================== *)
(** ** Sessions: add, flush, commit, query *)
(* ===================================================================== *)

(** [session.add(obj)]: the object becomes pending, once.  Every object of
    the sample is added by the workflow itself, so the save-update cascade
    along relationships adds nothing to the pending set and is not
    modelled. *)
Definition add (session : Session) (o : Obj) : Session :=
  if bool_decide (obj_ref o ∈ map obj_ref (new session)) then session
  else mkSession (session_bind session) (new session ++ [o]).

(** [session.close()]: the session is released; the world is unchanged. *)
Definition close (session : Session) : M unit := ret tt.

(** The key SQLite gives a new row: one more than the largest in use. *)
Definition next_id {C} (rs : list (Row C)) : Z :=
  1 + foldr Z.max 0 (map row_id rs).

(** The keys assigned during a flush, by the identity of the object. *)
Definition id_map := list (Ref * Z).

Fixpoint lookup_ref (m : id_map) (r : Ref) : option Z :=
  match m with
  | [] => None
  | (r', k) :: m' => if Nat.eqb r' r then Some k else lookup_ref m' r
  end.

Section Insert.
Context {C : Type}.
(** Whether inserting [c] next to [rs] breaks a constraint of the table. *)
Variable violates : list (Row C) -> C -> bool.

(** One INSERT: the timestamps' defaults are evaluated, then the statement
    runs against the table. *)
Definition insert_row (table : option (list (Row C))) (c : C)
  : M (Z * list (Row C)) :=
  let* ca := utcnow in
  let* ua := utcnow in
  match table with
  | None => raise OperationalError
  | Some rs =>
      if violates rs c then raise IntegrityError
      else let k := next_id rs in
           ret (k, rs ++ [mkRow (AbstractTable.mk k ca ua) c])
  end.

(** The INSERTs of one table, in the order the objects became pending. *)
Fixpoint insert_all (table : option (list (Row C)))
    (pending : list (instance C)) (m : id_map)
  : M (option (list (Row C)) * id_map) :=
  match pending with
  | [] => ret (table, m)
  | i :: rest =>
      let* kr := insert_row table (attrs i) in
      insert_all (Some (snd kr)) rest (m ++ [(ref i, fst kr)])
  end.
End Insert.

Definition no_constraint {C} : list (Row C) -> C -> bool := fun _ _ => false.

(** [unique=True] on [Order.order_number]. *)
Definition order_number_taken (rs : list (Row Order.t)) (o : Order.t) : bool :=
  bool_decide (Order.order_number o ∈ map (fun r => Order.order_number (cols r)) rs).

Definition pending_suppliers (l : list Obj) : list (instance Supplier.t) :=
  omap (fun o => match o with NewSupplier s => Some s | _ => None end) l.
Definition pending_products (l : list Obj) : list (instance Product.t * Ref) :=
  omap (fun o => match o with NewProduct p s => Some (p, s) | _ => None end) l.
Definition pending_orders (l : list Obj) : list (instance Order.t) :=
  omap (fun o => match o with NewOrder o => Some o | _ => None end) l.
Definition pending_items (l : list Obj)
  : list (instance OrderItem.t * Ref * Ref) :=
  omap (fun o => match o with
                 | NewOrderItem i o p => Some (i, o, p)
                 | _ => None
                 end) l.

(** The foreign keys are copied from the rows the related objects got. *)
Definition link_product (sm : id_map) (p : instance Product.t * Ref)
  : instance Product.t :=
  mkInstance (ref (fst p))
             (Product.set_supplier_id (attrs (fst p)) (lookup_ref sm (snd p))).

Definition link_item (om pm : id_map) (i : instance OrderItem.t * Ref * Ref)
  : instance OrderItem.t :=
  let '(it, o, p) := i in
  mkInstance (ref it)
             (OrderItem.set_keys (attrs it) (lookup_ref om o) (lookup_ref pm p)).

(** The flush of the unit of work: the tables in dependency order
    (suppliers, products, orders, order_items). *)
Definition flush (pending : list Obj) (s : Store) : M Store :=
  let* sr := insert_all no_constraint (suppliers s) (pending_suppliers pending) [] in
  let* pr := insert_all no_constraint (products s)
           (map (link_product (snd sr)) (pending_products pending)) [] in
  let* or := insert_all order_number_taken (orders s) (pending_orders pending) [] in
  let* ir := insert_all no_constraint (order_items s)
           (map (link_item (snd or) (snd pr)) (pending_items pending)) [] in
  ret (mkStore (fst sr) (fst pr) (fst or) (fst ir)).

(** [session.commit()]: the flush runs in a transaction; the store changes
    only when every INSERT went through. *)
Definition commit (session : Session) : M unit := fun w =>
  match flush (new session) (store w) w with
  | (Raise e, w') => (Raise e, w')
  | (Return s, w') => (Return tt, set_store s w')
  end.

(** [session.query(Order).all()]. *)
Definition query_orders : M (list (Row Order.t)) := fun w =>
  match orders (store w) with
  | None => raise OperationalError w
  | Some rs => ret rs w
  end.

(** [session.query(OrderItem).filter_by(order_id=k).all()]. *)
Definition query_items_by_order (k : Z) : M (list (Row OrderItem.t)) := fun w =>
  match order_items (store w) with
  | None => raise OperationalError w
  | Some rs =>
      ret (filter (fun r => OrderItem.order_id (cols r) = Some k) rs) w
  end.

(** [session.query(Product).filter_by(id=k).first()]; [k] is [None] when
    the item has no product key, and then no row matches. *)
Definition query_product_first (k : option Z) : M (option (Row Product.t)) :=
  fun w =>
  match products (store w) with
  | None => raise OperationalError w
  | Some rs => ret (head (filter (fun r => Some (row_id r) = k) rs)) w
  end.

(* ===================================================================== *)
(** ** WaosaDataFiller *)
(* ===================================================================== *)

(** The entries of [orders_data]: dictionaries with the keys below. *)
Module OrdersData.
Record item := mkItem { product : instance Product.t; quantity : Z }.
Record order := mkOrder {
  customer_name : string;
  customer_email : string;
  items : list item }.
End OrdersData.

(** The inner loop, over [order_data["items"]]: an [OrderItem] per entry,
    priced at the product's price now, added to the session; the running
    [total_amount] is returned with the session. *)
Fixpoint create_order_items (order : Ref) (items : list OrdersData.item)
    (total_amount : float) (session : Session) : M (float * Session) :=
  match items with
  | [] => ret (total_amount, session)
  | item_data :: rest =>
      let product := OrdersData.product item_data in
      let* item_total :=
        lift (float_mul_int (Product.price (attrs product))
                            (OrdersData.quantity item_data)) in
      let* r := new_ref in
      let order_item :=
        NewOrderItem
          (mkInstance r (OrderItem.mk None None
                           (OrdersData.quantity item_data)
                           (Product.price (attrs product))
                           item_total))
          order (ref product) in
      create_order_items order rest (PrimFloat.add total_amount item_total)
                         (add session order_item)
  end.

(** The outer loop, over [orders_data]: an [Order] with a generated number,
    its items, then the total is stored on the order and the order added.
    [total_amount] starts at the int [0]; the column default [0.0] stands
    for it on the new [Order]. *)
Fixpoint create_orders (orders_data : list OrdersData.order)
    (session : Session) : M Session :=
  match orders_data with
  | [] => ret session
  | order_data :: rest =>
      let* uuid := uuid4 in
      let* r := new_ref in
      let order :=
        Order.mk (OrderNumber.generate_order_number uuid)
                 (OrdersData.customer_name order_data)
                 (Some (OrdersData.customer_email order_data))
                 None 0%float "completed" in
      let* ts := create_order_items r (OrdersData.items order_data)
                                    0%float session in
      let order := Order.set_total_amount order (fst ts) in
      create_orders rest (add (snd ts) (NewOrder (mkInstance r order)))
  end.

Definition sample_supplier : Supplier.t :=
  Supplier.mk "Waosa Supplier" (Some "Waosa Manager")
              (Some "manager@waosa.com") (Some "123-456-7890") None.

Definition product_A : Product.t :=
  Product.mk "Waosa Product A" None 100%float 50 None.
Definition product_B : Product.t :=
  Product.mk "Waosa Product B" None 200%float 30 None.
Definition product_C : Product.t :=
  Product.mk "Waosa Product C" None 150%float 20 None.

(** [orders_data], for the three product objects. *)
Definition sample_orders_data (a b c : instance Product.t)
  : list OrdersData.order :=
  [ OrdersData.mkOrder "Alice Johnson" "alice@waosa.com"
      [OrdersData.mkItem a 2; OrdersData.mkItem b 1];
    OrdersData.mkOrder "Bob Smith" "bob@waosa.com"
      [OrdersData.mkItem c 3; OrdersData.mkItem a 1] ].

(** [fill_with_sample_data]. *)
Definition fill_with_sample_data : M unit :=
  let* session := get_session in
  let* rs := new_ref in
  let supplier := mkInstance rs sample_supplier in
  let* ra := new_ref in
  let* rb := new_ref in
  let* rc := new_ref in
  let products :=
    [mkInstance ra product_A; mkInstance rb product_B; mkInstance rc product_C] in
  let orders_data :=
    sample_orders_data (mkInstance ra product_A) (mkInstance rb product_B)
                       (mkInstance rc product_C) in
  let* session := create_orders orders_data session in
  let session := add session (NewSupplier supplier) in
  let session :=
    foldl (fun s p => add s (NewProduct p (ref supplier))) session products in
  let* _ := commit session in
  let* _ := close session in
  print "Данные из Waosa Club добавлены".

(* ===================================================================== *)
(** ** OrderManager and ODTExporter *)
(* ===================================================================== *)

(** [get_all_orders]. *)
Definition get_all_orders : M (list (Row Order.t)) :=
  let* session := get_session in
  let* orders := query_orders in
  let* _ := close session in
  ret orders.

(** [str(n)] for an int. *)
Definition int_str (n : Z) : string :=
  DecimalString.NilZero.string_of_int (Z.to_int n).

Definition newline : string := String (ascii_of_nat 10) EmptyString.

(** [ODTExporter.export_orders_to_odt]'s default file name. *)
Definition default_filename : string := "orders.odt".

(** [P.addText]. *)
Definition addText (p : P) (text : string) : P := mkP (texts p ++ [text]).

(** [doc.save(filename)]: the file is written, over what was there. *)
Definition save (doc : document) (filename : string) : M unit := fun w =>
  (Return tt, set_files (<[filename := doc]> (files w)) w).

Section Formatting.
(** How an f-string renders a float ([repr] of the float). *)
Variable float_str : float -> string.

Fixpoint display_items (items : list (Row OrderItem.t)) : M unit :=
  match items with
  | [] => ret tt
  | item :: rest =>
      let* product := query_product_first (OrderItem.product_id (cols item)) in
      match product with
      | None => raise AttributeError
      | Some product =>
          let* _ :=
            print ("    - " +:+ Product.name (cols product) +:+ ": "
                   +:+ int_str (OrderItem.quantity (cols item)) +:+ " x $"
                   +:+ float_str (OrderItem.unit_price (cols item))) in
          display_items rest
      end
  end.

Fixpoint display_each (orders : list (Row Order.t)) : M unit :=
  match orders with
  | [] => ret tt
  | order :: rest =>
      let* _ := print ("Заказ " +:+ Order.order_number (cols order) +:+ ":") in
      let* _ := print ("  Клиент: " +:+ Order.customer_name (cols order)) in
      let* _ := print ("  Сумма: $" +:+ float_str (Order.total_amount (cols order))) in
      let* _ := print ("  Статус: " +:+ Order.status (cols order)) in
      let* session := get_session in
      let* items := query_items_by_order (row_id order) in
      let* _ := display_items items in
      let* _ := close session in
      let* _ := print "" in
      display_each rest
  end.

(** [display_orders]. *)
Definition display_orders : M unit :=
  let* orders := get_all_orders in
  let* _ := print (newline +:+ "СПИСОК ЗАКАЗОВ:") in
  display_each orders.

(** The body of the exporter's loop: the paragraphs one order adds. *)
Definition export_order (doc : document) (order : Row Order.t) : document :=
  let order_header := addText (mkP []) ("Заказ: " +:+ Order.order_number (cols order)) in
  let doc := doc ++ [order_header] in
  let customer_info := addText (mkP []) ("Клиент: " +:+ Order.customer_name (cols order)) in
  let doc := doc ++ [customer_info] in
  let amount_info :=
    addText (mkP []) ("Сумма: $" +:+ float_str (Order.total_amount (cols order))
                      +:+ " | Статус: " +:+ Order.status (cols order)) in
  let doc := doc ++ [amount_info] in
  doc ++ [mkP []].

(** [export_orders_to_odt]. *)
Definition export_orders_to_odt (orders : list (Row Order.t))
    (filename : string) : M unit :=
  let doc : document := [] in
  let title := addText (mkP []) "ОТЧЕТ ПО ЗАКАЗАМ" in
  let doc := doc ++ [title] in
  let doc := doc ++ [mkP []] in
  let doc := foldl export_order doc orders in
  let* _ := save doc filename in
  print ("Файл " +:+ filename +:+ " создан").

(** [main]. *)
Definition main : M unit :=
  let* _ := (fun w => (Return tt,
                       set_db (DatabaseConnection_init "sqlite:///waosa.db") w)) in
  let* _ := create_tables in
  let* _ := fill_with_sample_data in
  let* _ := display_orders in
  let* orders := get_all_orders in
  let* _ := export_orders_to_odt orders default_filename in
  print "Готово!".

(** *** Runs of the program's operations

    The operations a caller can invoke on the one connection, in any
    order; an operation that raises leaves the world it reached and the
    caller goes on. *)
Inductive Op : Type :=
| OpConnect
| OpGetSession
| OpCreateTables
| OpFill
| OpGetAllOrders
| OpDisplay
| OpExport (filename : string)
| OpMain.

Definition exec (op : Op) : M unit :=
  match op with
  | OpConnect => let* _ := connect in ret tt
  | OpGetSession => let* _ := get_session in ret tt
  | OpCreateTables => create_tables
  | OpFill => fill_with_sample_data
  | OpGetAllOrders => let* _ := get_all_orders in ret tt
  | OpDisplay => display_orders
  | OpExport filename =>
      let* orders := get_all_orders in
      export_orders_to_odt orders filename
  | OpMain => main
  end.

Definition run (ops : list Op) (w : World) : World :=
  foldl (fun w op => snd (exec op w)) w ops.

End Formatting.

(** The world before the program starts: a database file without tables,
    nothing printed, no file written. *)
Definition initial_world (e : nat -> Z) (t0 : datetime) (k : nat -> N) : World :=
  mkWorld (DatabaseConnection_init "sqlite:///waosa.db") empty_store
          e t0 k O [] ∅.

(* ===================================================================== *)
(** ** What the theorems speak about *)
(* ===================================================================== *)

(** A world that differs from another one only by its clock, which has not
    gone back. *)
Definition later (w w' : World) : Prop :=
  db w' = db w /\ store w' = store w /\ entropy w' = entropy w /\
  next_ref w' = next_ref w /\ stdout w' = stdout w /\ files w' = files w /\
  clock w <= clock w'.

(** The line items of an order, as [order.order_items] loads them: the rows
    of [order_items] whose [order_id] is the order's key, in rowid order. *)
Definition items_of (s : Store) (o : Row Order.t) : list (Row OrderItem.t) :=
  filter (fun i => OrderItem.order_id (cols i) = Some (row_id o))
         (rows (order_items s)).

Definition line_totals (l : list (Row OrderItem.t)) : list float :=
  map (fun i => OrderItem.total_price (cols i)) l.

(** [O.total_amount == sum(item.total_price for item in O.order_items)]. *)
Definition total_amount_ok (s : Store) (o : Row Order.t) : bool :=
  float_eq (Order.total_amount (cols o)) (py_sum (line_totals (items_of s o))).

(** [I.total_price == I.quantity * I.unit_price]. *)
Definition line_total_ok (i : OrderItem.t) : bool :=
  match int_mul_float (OrderItem.quantity i) (OrderItem.unit_price i) with
  | Return x => float_eq (OrderItem.total_price i) x
  | Raise _ => false
  end.

Definition order_numbers (s : Store) : list string :=
  map (fun o => Order.order_number (cols o)) (rows (orders s)).

(** The keys of a table's rows. *)
Definition ids {C} (rs : list (Row C)) : list Z := map row_id rs.

(** An item's two foreign keys point to rows that exist. *)
Definition item_resolves (s : Store) (i : Row OrderItem.t) : Prop :=
  (exists k, OrderItem.order_id (cols i) = Some k /\ k ∈ ids (rows (orders s))) /\
  (exists k, OrderItem.product_id (cols i) = Some k /\ k ∈ ids (rows (products s))).

(** The header of the report and the block of one order. *)
Definition report_header : document :=
  [mkP ["ОТЧЕТ ПО ЗАКАЗАМ"]; mkP []].

Definition order_block (float_str : float -> string) (o : Row Order.t)
  : document :=
  [ mkP ["Заказ: " +:+ Order.order_number (cols o)];
    mkP ["Клиент: " +:+ Order.customer_name (cols o)];
    mkP ["Сумма: $" +:+ float_str (Order.total_amount (cols o))
         +:+ " | Статус: " +:+ Order.status (cols o)];
    mkP [] ].


(** [repr] of a float that is a whole number below [10^16] in magnitude
    (every amount of the sample is one): its digits and [.0]. *)
Definition float_str_whole (x : float) : string :=
  match Prim2SF x with
  | S754_zero s => if s then "-0.0" else "0.0"
  | S754_infinity s => if s then "-inf" else "inf"
  | S754_nan => "nan"
  | S754_finite s m e =>
      let n := if 0 <=? e then Z.pos m * 2 ^ e else Z.pos m / 2 ^ (- e) in
      (if s then "-" else "") +:+ int_str n +:+ ".0"
  end.

(** A random source and a clock to run the sample with. *)
Definition sample_entropy (n : nat) : Z :=
  match n with
  | O => 0x1234abcd00000000000000000000ffff
  | _ => 0xdeadbeef000000000000000000000000 + Z.of_nat n
  end.

Definition sample_world : World :=
  initial_world sample_entropy 1000 (fun _ => 1%N).

(** A random source that yields the same bits twice. *)
Definition stuck_entropy (n : nat) : Z := 5.

(** The totals of the pending items of the order object [r], in the order
    they became pending. *)
Definition pending_totals (r : Ref) (l : list Obj) : list float :=
  map (fun x => OrderItem.total_price (attrs x.1.1))
      (filter (fun x => x.1.2 = r) (pending_items l)).

(** What the workflow has to leave in the session for the flush to keep
    the store consistent. *)
Record pending_ok (l : list Obj) : Prop := mkPendingOk {
  pending_order_refs : NoDup (map ref (pending_orders l));
  pending_order_totals :
    Forall (fun o =>
              Order.total_amount (attrs o) = py_sum (pending_totals (ref o) l) /\
              float_eq (Order.total_amount (attrs o))
                       (Order.total_amount (attrs o)) = true)
           (pending_orders l);
  pending_item_refs :
    Forall (fun x => x.1.2 ∈ map ref (pending_orders l) /\
                     x.2 ∈ map (fun p => ref p.1) (pending_products l))
           (pending_items l);
  pending_item_lines :
    Forall (fun x => line_total_ok (attrs x.1.1) = true) (pending_items l) }.

(** The invariant of the store. *)
Record store_inv (s : Store) : Prop := mkStoreInv {
  inv_order_ids : StronglySorted Z.lt (ids (rows (orders s)));
  inv_numbers : NoDup (order_numbers s);
  inv_resolves : Forall (item_resolves s) (rows (order_items s));
  inv_lines :
    Forall (fun i => line_total_ok (cols i) = true) (rows (order_items s));
  inv_totals : Forall (fun o => total_amount_ok s o = true) (rows (orders s));
  inv_created : StronglySorted Z.le (map row_created_at (rows (orders s))) }.

(** The invariant of the world: the store's, and no order was created after
    the last reading of the clock. *)
Definition world_inv (w : World) : Prop :=
  store_inv (store w) /\
  Forall (fun o => row_created_at o <= clock w) (rows (orders (store w))).

Section InsertedRows.
Context {C : Type}.
Variable violates : list (Row C) -> C -> bool.

(** [inserted rs t pending news m t']: from the rows [rs] and the clock at
    [t], inserting the pending instances appends the rows [news], records
    the keys [m] and leaves the clock at [t']. *)
Inductive inserted
  : list (Row C) -> datetime -> list (instance C) ->
    list (Row C) -> id_map -> datetime -> Prop :=
| inserted_nil rs t : inserted rs t [] [] [] t
| inserted_cons rs t i pending ca ua news m t' :
    t <= ca -> ca <= ua ->
    violates rs (attrs i) = false ->
    inserted (rs ++ [mkRow (AbstractTable.mk (next_id rs) ca ua) (attrs i)])
             ua pending news m t' ->
    inserted rs t (i :: pending)
             (mkRow (AbstractTable.mk (next_id rs) ca ua) (attrs i) :: news)
             ((ref i, next_id rs) :: m) t'.

End InsertedRows.

(** What a flush that went through did to the four tables. *)
Inductive flushed (pending : list Obj) (s : Store) (t : datetime)
    (s' : Store) (t' : datetime) : Prop :=
| flushed_intro newS sm newP pm newO om newI im t1 t2 t3 :
    inserted no_constraint (rows (suppliers s)) t
             (pending_suppliers pending) newS sm t1 ->
    inserted no_constraint (rows (products s)) t1
             (map (link_product sm) (pending_products pending)) newP pm t2 ->
    inserted order_number_taken (rows (orders s)) t2
             (pending_orders pending) newO om t3 ->
    inserted no_constraint (rows (order_items s)) t3
             (map (link_item om pm) (pending_items pending)) newI im t' ->
    rows (suppliers s') = rows (suppliers s) ++ newS ->
    rows (products s') = rows (products s) ++ newP ->
    rows (orders s') = rows (orders s) ++ newO ->
    rows (order_items s') = rows (order_items s) ++ newI ->
    flushed pending s t s' t'.


(** The line totals of the items with a given order key. *)
Definition totals_for (k : Z) (cs : list OrderItem.t) : list float :=
  map OrderItem.total_price
      (filter (fun c => OrderItem.order_id c = Some k) cs).


(** The pending objects [fill_with_sample_data] hands to the commit, for
    the first identity [n] it used and the two order numbers it drew. *)
Definition sample_pending (n : Ref) (number1 number2 : string) : list Obj :=
  [ NewOrderItem (mkInstance (5 + n)%nat (OrderItem.mk None None 2 100 200))
                 (4 + n)%nat (1 + n)%nat;
    NewOrderItem (mkInstance (6 + n)%nat (OrderItem.mk None None 1 200 200))
                 (4 + n)%nat (2 + n)%nat;
    NewOrder (mkInstance (4 + n)%nat
                (Order.mk number1 "Alice Johnson" (Some "alice@waosa.com")
                          None 400 "completed"));
    NewOrderItem (mkInstance (8 + n)%nat (OrderItem.mk None None 3 150 450))
                 (7 + n)%nat (3 + n)%nat;
    NewOrderItem (mkInstance (9 + n)%nat (OrderItem.mk None None 1 100 100))
                 (7 + n)%nat (1 + n)%nat;
    NewOrder (mkInstance (7 + n)%nat
                (Order.mk number2 "Bob Smith" (Some "bob@waosa.com")
                          None 550 "completed"));
    NewSupplier (mkInstance n sample_supplier);
    NewProduct (mkInstance (1 + n)%nat product_A) n;
    NewProduct (mkInstance (2 + n)%nat product_B) n;
    NewProduct (mkInstance (3 + n)%nat product_C) n ].

(** A computation that keeps the invariant of the world. *)
Definition preserves {A} (m : M A) : Prop :=
  forall w, world_inv w -> world_inv (snd (m w)).

(** A computation that leaves the store and the clock as they are. *)
Definition quiet {A} (m : M A) : Prop :=
  forall w, store (snd (m w)) = store w /\ clock (snd (m w)) = clock w.

(** What the workflow adds to a store [s], giving [s']: the catalog of the
    three products at 100, 200 and 150, an order of Alice Johnson for 2 of
    A and 1 of B with the total 400, and an order of Bob Smith for 3 of C
    and 1 of A with the total 550. *)
Definition sample_orders_created (s s' : Store) : Prop :=
  exists pa pb pc o1 o2,
    rows (products s') = rows (products s) ++ [pa; pb; pc] /\
    map (fun p => (Product.name (cols p), Product.price (cols p))) [pa; pb; pc]
    = [("Waosa Product A", 100%float); ("Waosa Product B", 200%float);
       ("Waosa Product C", 150%float)] /\
    rows (orders s') = rows (orders s) ++ [o1; o2] /\
    map cols (items_of s' o1)
    = [OrderItem.mk (Some (row_id o1)) (Some (row_id pa)) 2 100 200;
       OrderItem.mk (Some (row_id o1)) (Some (row_id pb)) 1 200 200] /\
    Order.customer_name (cols o1) = "Alice Johnson" /\
    Order.total_amount (cols o1) = 400%float /\
    map cols (items_of s' o2)
    = [OrderItem.mk (Some (row_id o2)) (Some (row_id pc)) 3 150 450;
       OrderItem.mk (Some (row_id o2)) (Some (row_id pa)) 1 100 100] /\
    Order.customer_name (cols o2) = "Bob Smith" /\
    Order.total_amount (cols o2) = 550%float.

(** The value of an upper-case hexadecimal digit. *)
Definition unhex (c : ascii) : Z :=
  let n := Z.of_nat (nat_of_ascii c) in
  if n <=? 57 then n - 48 else n - 55.

(** The 32 bits of the random source that reach an order number: bits 96
    to 127, the field [time_low] of the uuid. *)
Definition number_bits (r : Z) : Z := Z.shiftr r 96 mod 2 ^ 32.

(** How a run of the workflow ends, from the tables the store has and the
    two order numbers drawn: the flush meets a missing table or a taken
    order number in the order suppliers, products, orders, order_items. *)
Definition fill_outcome (s : Store) (number1 number2 : string) : Result unit :=
  match suppliers s, products s, orders s with
  | Some _, Some _, Some _ =>
      if bool_decide (number1 ∈ order_numbers s) then Raise IntegrityError
      else if bool_decide (number2 ∈ order_numbers s ++ [number1])
           then Raise IntegrityError
           else match order_items s with
                | Some _ => Return tt
                | None => Raise OperationalError
                end
  | _, _, _ => Raise OperationalError
  end.

(** The connection object once [connect] has run on it. *)
Definition connected_db (cs : string) : DatabaseConnection :=
  mkDatabaseConnection cs (Some (create_engine cs))
    (Some (mkSessionmaker false false (create_engine cs))).

Definition waosa_url : string := "sqlite:///waosa.db".




(** The four tables exist together or not at all. *)
Definition schema_ok (s : Store) : Prop :=
  (suppliers s = None /\ products s = None /\ orders s = None /\
   order_items s = None) \/
  (is_Some (suppliers s) /\ is_Some (products s) /\ is_Some (orders s) /\
   is_Some (order_items s)).

Definition keeps_schema {A} (m : M A) : Prop :=
  forall w, schema_ok (store w) -> schema_ok (store (snd (m w))).

(** *** The listing [display_orders] prints, as a function of the store *)

Definition product_name (s : Store) (key : option Z) : option string :=
  match head (filter (fun r => Some (row_id r) = key) (rows (products s))) with
  | Some p => Some (Product.name (cols p))
  | None => None
  end.

Section Listing.
Variable float_str : float -> string.
Variable s : Store.

(** The lines of the items of an order, when each item's product is found. *)
Fixpoint item_lines (items : list (Row OrderItem.t)) : option (list string) :=
  match items with
  | [] => Some []
  | i :: rest =>
      match product_name s (OrderItem.product_id (cols i)), item_lines rest with
      | Some name, Some lines =>
          Some (("    - " +:+ name +:+ ": "
                 +:+ int_str (OrderItem.quantity (cols i)) +:+ " x $"
                 +:+ float_str (OrderItem.unit_price (cols i))) :: lines)
      | _, _ => None
      end
  end.

Fixpoint order_blocks (l : list (Row Order.t)) : option (list string) :=
  match l with
  | [] => Some []
  | o :: rest =>
      match item_lines (items_of s o), order_blocks rest with
      | Some lines, Some more =>
          Some ([ "Заказ " +:+ Order.order_number (cols o) +:+ ":";
                  "  Клиент: " +:+ Order.customer_name (cols o);
                  "  Сумма: $" +:+ float_str (Order.total_amount (cols o));
                  "  Статус: " +:+ Order.status (cols o) ]
                ++ lines ++ [""] ++ more)
      | _, _ => None
      end
  end.

Definition listing : option (list string) :=
  match order_blocks (rows (orders s)) with
  | Some blocks => Some ((newline +:+ "СПИСОК ЗАКАЗОВ:") :: blocks)
  | None => None
  end.
End Listing.

(** A persisted order as the workflow makes it: a number of the pattern,
    the status [completed] (the column default [pending] is never used),
    and two line items. *)
Definition order_well_formed (s : Store) (o : Row Order.t) : Prop :=
  OrderNumber.fullmatch OrderNumber.ORD_pattern (Order.order_number (cols o)) = true /\
  Order.status (cols o) = "completed" /\
  length (items_of s o) = 2%nat.

(** The line totals of the [OrderItem] objects of a list of pending
    objects, in order. *)
Definition item_totals (l : list Obj) : list float :=
  map (fun x => OrderItem.total_price (attrs x.1.1)) (pending_items l).


(* ===================================================================== *)
(** * Verification *)
(* ===================================================================== *)
(** ** Theorems on order numbers *)
(* ===================================================================== *)

Module OrderNumberFacts.
Import OrderNumber.

Lemma hex_digit_upper_hex (v : Z) :
  upper_hex (upper_ascii (hex_digit (v mod 16))) = true.
Proof.
  assert (H : 0 <= v mod 16 < 16) by (apply Z.mod_pos_bound; lia).
  assert (C : v mod 16 = 0 \/ v mod 16 = 1 \/ v mod 16 = 2 \/ v mod 16 = 3
           \/ v mod 16 = 4 \/ v mod 16 = 5 \/ v mod 16 = 6 \/ v mod 16 = 7
           \/ v mod 16 = 8 \/ v mod 16 = 9 \/ v mod 16 = 10 \/ v mod 16 = 11
           \/ v mod 16 = 12 \/ v mod 16 = 13 \/ v mod 16 = 14 \/ v mod 16 = 15)
    by lia.
  repeat (destruct C as [C | C]; [rewrite C; reflexivity |]).
  rewrite C; reflexivity.
Qed.

Lemma uuid4_int_range (r : Z) : 0 <= uuid4_int r < 2 ^ 128.
Proof.
  unfold uuid4_int.
  assert (H : 0 <= r mod 2 ^ 128 < 2 ^ 128) by (apply Z.mod_pos_bound; lia).
  set (i := r mod 2 ^ 128) in *.
  assert (B : forall x y, 0 <= x < 2 ^ 128 -> 0 <= y < 2 ^ 128 ->
                          0 <= Z.lor x y < 2 ^ 128).
  { intros x y Hx Hy. split; [apply Z.lor_nonneg; lia |].
    destruct (Z.eq_dec (Z.lor x y) 0) as [-> | Hne]; [lia |].
    apply Z.log2_lt_pow2; [assert (0 <= Z.lor x y) by (apply Z.lor_nonneg; lia); lia |].
    rewrite Z.log2_lor by lia.
    destruct (Z.eq_dec x 0) as [-> | Hx0], (Z.eq_dec y 0) as [-> | Hy0];
      simpl Z.log2; try lia;
      try (assert (Z.log2 x < 128) by (apply Z.log2_lt_pow2; lia));
      try (assert (Z.log2 y < 128) by (apply Z.log2_lt_pow2; lia)); lia. }
  assert (A : forall x m, 0 <= x < 2 ^ 128 -> 0 <= Z.land x m < 2 ^ 128).
{ intros x m Hx.
  assert (E : Z.land x m = Z.land x m mod 2 ^ 128).
  { rewrite <- (Z.land_ones (Z.land x m) 128) by lia.
    rewrite <- Z.land_assoc, (Z.land_comm m), Z.land_assoc.
    rewrite (Z.land_ones x 128) by lia.
    rewrite (Z.mod_small x) by lia. reflexivity. }
  rewrite E. apply Z.mod_pos_bound. lia. }
apply B; [| vm_compute; split; [discriminate | reflexivity]].
  apply A. apply B; [| vm_compute; split; [discriminate | reflexivity]].
  apply A. exact H.
Qed.


Lemma hex_prefix_upper_hex (k n : nat) (v : Z) :
  (k <= n)%nat ->
  fullmatch (replicate k upper_hex) (upper (prefix k (hex_digits n v))) = true.
Proof.
  revert n. induction k as [| k IH]; intros n Hkn.
  - destruct n; reflexivity.
  - destruct n as [| n]; [lia |].
    cbn [hex_digits prefix upper replicate fullmatch].
    rewrite hex_digit_upper_hex. apply IH. lia.
Qed.

(** C4: every string [generate_order_number] returns, whatever uuid the
    random source yields, matches [ORD-[0-9A-F]{8}]: the prefix [ORD-] and
    then exactly eight upper-case hexadecimal characters. *)
Theorem generate_order_number_format (uuid : Z) :
  fullmatch ORD_pattern (generate_order_number uuid) = true.
Proof.
  unfold generate_order_number, ORD_pattern, hex.
  cbn [String.append app fullmatch lit].
  change (fullmatch (replicate 8 upper_hex)
            (upper (prefix 8 (hex_digits 32 uuid))) = true).
  apply hex_prefix_upper_hex. lia.
Qed.

(** The number computed from a concrete uuid. *)
Example generate_order_number_sample :
  generate_order_number (uuid4_int (sample_entropy 0)) = "ORD-1234ABCD".
Proof. vm_compute. reflexivity. Qed.

(** Only the 32 leading bits of the uuid reach the order number. *)
Lemma generate_order_number_low_bits :
  generate_order_number (uuid4_int 0) = generate_order_number (uuid4_int 1).
Proof. vm_compute. reflexivity. Qed.

End OrderNumberFacts.

(* ===================================================================== *)
(** ** The connection and the schema *)
(* ===================================================================== *)

Module GatewayFacts.


(** Once connected, both calls reuse what [connect] stored. *)
Lemma connected_stays (w : World) (e : Engine) (f : sessionmaker) :
  engine (db w) = Some e -> SessionLocal (db w) = Some f ->
  db (snd (get_session w)) = db w /\ db (snd (create_tables w)) = db w.
Proof.
  intros He Hf. unfold get_session, create_tables, and_then, ret.
  rewrite He, Hf. cbn. rewrite He, Hf. split; reflexivity.
Qed.

Lemma create_all_idempotent (s : Store) : create_all (create_all s) = create_all s.
Proof. reflexivity. Qed.

Lemma create_tables_returns (w : World) :
  fst (create_tables w) = Return tt /\
  store (snd (create_tables w)) = create_all (store w).
Proof.
  unfold create_tables, and_then, ret.
  destruct (engine (db w)) eqn:He; cbn; rewrite ?He; split; reflexivity.
Qed.


(** On a database that has the four tables the store does not change. *)
Lemma create_all_existing (a : list (Row Supplier.t)) (b : list (Row Product.t))
    (c : list (Row Order.t)) (d : list (Row OrderItem.t)) :
  create_all (mkStore (Some a) (Some b) (Some c) (Some d))
  = mkStore (Some a) (Some b) (Some c) (Some d).
Proof. reflexivity. Qed.

End GatewayFacts.

(* ===================================================================== *)
(** ** The report *)
(* ===================================================================== *)

Module ReportFacts.

Section Report.
Variable float_str : float -> string.





End Report.


(** The run of [main] on the sample world. *)
Definition after_main : World := snd (main float_str_whole sample_world).


(** The document [main] saves, in full. *)
Example report_after_main :
  files after_main !! default_filename = Some
    [ mkP ["ОТЧЕТ ПО ЗАКАЗАМ"]; mkP [];
      mkP ["Заказ: ORD-1234ABCD"]; mkP ["Клиент: Alice Johnson"];
      mkP ["Сумма: $400.0 | Статус: completed"]; mkP [];
      mkP ["Заказ: ORD-DEADBEEF"]; mkP ["Клиент: Bob Smith"];
      mkP ["Сумма: $550.0 | Статус: completed"]; mkP [] ].
Proof. vm_compute. reflexivity. Qed.

End ReportFacts.

(* ===================================================================== *)
(** ** Inserting rows *)
(* ===================================================================== *)

Module FlushFacts.

Lemma later_refl (w : World) : later w w.
Proof. unfold later. repeat split; lia. Qed.

Lemma later_trans (a b c : World) : later a b -> later b c -> later a c.
Proof.
  unfold later. intros (?&?&?&?&?&?&?) (?&?&?&?&?&?&?).
  repeat split; try congruence; lia.
Qed.

Lemma utcnow_later (w : World) :
  later w (snd (utcnow w)) /\ fst (utcnow w) = Return (clock (snd (utcnow w))).
Proof. unfold later, utcnow. cbn. repeat split; lia. Qed.

(** Every key in use is below the next one. *)
Lemma next_id_above {C} (rs : list (Row C)) :
  Forall (fun k => k < next_id rs) (ids rs).
Proof.
  unfold next_id, ids. induction rs as [| r rs IH]; cbn; constructor.
  - lia.
  - eapply Forall_impl; [exact IH |]. cbn. intros k Hk. lia.
Qed.

Lemma next_id_positive {C} (rs : list (Row C)) : 1 <= next_id rs.
Proof.
  unfold next_id. induction rs as [| r rs IH]; cbn; lia.
Qed.

Lemma next_id_snoc {C} (rs : list (Row C)) (ca ua : datetime) (c : C) :
  next_id (rs ++ [mkRow (AbstractTable.mk (next_id rs) ca ua) c]) = next_id rs + 1.
Proof.
  unfold next_id at 1. rewrite map_app. cbn [map row_id base AbstractTable.id].
  pose proof (next_id_positive rs) as P.
  assert (G : forall (l : list Z) (x : Z),
             Forall (fun k => k < x) l -> 0 < x ->
             foldr Z.max 0 (l ++ [x]) = x).
  { induction l as [| y l IH]; intros x F Hx; cbn.
    - lia.
    - inversion F; subst. rewrite IH by assumption. lia. }
  rewrite G; [lia | apply next_id_above | lia].
Qed.

Lemma next_id_snoc_eq {C} (rs : list (Row C)) (k : Z) (ca ua : datetime) (c : C) :
  k = next_id rs ->
  next_id (rs ++ [mkRow (AbstractTable.mk k ca ua) c]) = k + 1.
Proof. intros ->. apply next_id_snoc. Qed.

Lemma filter_none {A} (P : A -> Prop) `{forall x, Decision (P x)} (l : list A) :
  Forall (fun x => ~ P x) l -> filter P l = [].
Proof.
  induction 1 as [| x l Hx F IH]; [reflexivity |].
  rewrite filter_cons. destruct (decide (P x)); [contradiction | exact IH].
Qed.

Lemma StronglySorted_snoc {A} (R : A -> A -> Prop) (l : list A) (x : A) :
  StronglySorted R l -> Forall (fun y => R y x) l -> StronglySorted R (l ++ [x]).
Proof.
  induction l as [| a l IH]; intros S F; cbn.
  - repeat constructor.
  - inversion S; subst. inversion F; subst.
    constructor; [apply IH; assumption |].
    rewrite Forall_app. split; [assumption | repeat constructor; assumption].
Qed.

Section Inserted.
Context {C : Type}.
Variable violates : list (Row C) -> C -> bool.

Lemma insert_row_cases (table : option (list (Row C))) (c : C) (w : World) :
  let w2 := snd (utcnow (snd (utcnow w))) in
  later w w2 /\
  snd (insert_row violates table c w) = w2 /\
  match fst (insert_row violates table c w) with
  | Return (k, rs') =>
      exists rs ca ua,
        table = Some rs /\ violates rs c = false /\ k = next_id rs /\
        rs' = rs ++ [mkRow (AbstractTable.mk k ca ua) c] /\
        clock w <= ca /\ ca <= ua /\ ua = clock w2
  | Raise e => e = OperationalError \/ e = IntegrityError
  end.
Proof.
  cbv zeta. split.
  { eapply later_trans; apply utcnow_later. }
  unfold insert_row, and_then.
  destruct table as [rs |]; cbn.
  - destruct (violates rs c) eqn:V; cbn.
    + split; [reflexivity | right; reflexivity].
    + split; [reflexivity |].
      eexists rs, _, _. repeat split; try reflexivity; try assumption; lia.
  - split; [reflexivity | left; reflexivity].
Qed.

Lemma insert_all_later (pending : list (instance C)) :
  forall table m w, later w (snd (insert_all violates table pending m w)).
Proof.
  induction pending as [| i l IH]; intros table m w.
  - apply later_refl.
  - cbn [insert_all]. unfold and_then.
    destruct (insert_row_cases table (attrs i) w) as (L & E & _).
    destruct (insert_row violates table (attrs i) w) as [[e | kr] w1] eqn:R;
      cbn [fst snd] in E; subst w1.
    + exact L.
    + eapply later_trans; [exact L | apply IH].
Qed.

Lemma insert_all_Return (pending : list (instance C)) :
  forall table m0 w table' m',
    fst (insert_all violates table pending m0 w) = Return (table', m') ->
    exists news m,
      inserted violates (rows table) (clock w) pending news m
               (clock (snd (insert_all violates table pending m0 w))) /\
      rows table' = rows table ++ news /\ m' = m0 ++ m /\
      (pending = [] -> table' = table) /\
      (pending <> [] -> is_Some table /\ is_Some table').
Proof.
  induction pending as [| i l IH]; intros table m0 w table' m' H.
  - cbn in H. injection H as <- <-. exists [], [].
    cbn. rewrite !app_nil_r. repeat split; try constructor; congruence.
  - cbn [insert_all] in *. unfold and_then in *.
    destruct (insert_row_cases table (attrs i) w) as (L & E & K).
    destruct (insert_row violates table (attrs i) w) as [[e | [k rs']] w1] eqn:R;
      cbn [fst snd] in E, K, H; [discriminate |]. subst w1.
    destruct K as (rs & ca & ua & -> & V & -> & -> & H1 & H2 & H3).
    cbn [fst snd] in *.
    destruct (IH _ _ _ _ _ H) as (news & m & I & Rr & Mm & _ & N).
    eexists (_ :: news), (_ :: m). split; [| split; [| split; [| split]]].
    + eapply inserted_cons; [exact H1 | exact H2 | exact V |].
      subst ua. exact I.
    + rewrite Rr. cbn. rewrite <- app_assoc. reflexivity.
    + rewrite Mm, <- app_assoc. reflexivity.
    + discriminate.
    + intros _. split; [eexists; reflexivity |].
      destruct l; [| apply N; discriminate].
      cbn in H. injection H as <- _. eexists; reflexivity.
Qed.

(** *** What follows from [inserted] *)

Lemma inserted_clock rs t pending news m t' :
  inserted violates rs t pending news m t' -> t <= t'.
Proof. induction 1; lia. Qed.

Lemma inserted_cols rs t pending news m t' :
  inserted violates rs t pending news m t' -> map cols news = map attrs pending.
Proof. induction 1; cbn; congruence. Qed.

Lemma inserted_map rs t pending news m t' :
  inserted violates rs t pending news m t' ->
  map fst m = map ref pending /\ map snd m = ids news.
Proof.
  induction 1 as [| rs t i pending ca ua news m t' H1 H2 V I [IH1 IH2]].
  - split; reflexivity.
  - unfold ids in *. cbn. rewrite IH1, IH2. split; reflexivity.
Qed.

(** Row by row: the row an instance got carries its attributes, and the key
    map pairs the instance with the row's key. *)
Lemma inserted_rows rs t pending news m t' :
  inserted violates rs t pending news m t' ->
  Forall2 (fun i r => cols r = attrs i /\ (ref i, row_id r) ∈ m) pending news.
Proof.
  induction 1; constructor.
  - split; [reflexivity | left].
  - eapply Forall2_impl; [exact IHinserted |]. cbn.
    intros x y [? ?]. split; [assumption | right; assumption].
Qed.

Lemma inserted_ids rs t pending news m t' :
  inserted violates rs t pending news m t' ->
  StronglySorted Z.lt (ids rs) ->
  StronglySorted Z.lt (ids (rs ++ news)) /\
  Forall (fun k => next_id rs <= k) (ids news).
Proof.
  induction 1 as [| rs t i pending ca ua news m t' H1 H2 V I IH]; intros S.
  - rewrite app_nil_r. split; [exact S | constructor].
  - assert (S' : StronglySorted Z.lt
                   (ids (rs ++ [mkRow (AbstractTable.mk (next_id rs) ca ua) (attrs i)]))).
    { unfold ids. rewrite map_app. cbn.
      apply StronglySorted_snoc; [exact S | apply next_id_above]. }
    destruct (IH S') as [S2 F2].
    rewrite <- app_assoc in S2. cbn in S2. split; [exact S2 |].
    cbn. constructor; [unfold row_id; cbn; lia |].
    eapply Forall_impl; [exact F2 |]. cbn. intros k Hk.
    assert (next_id rs < next_id (rs ++ [mkRow (AbstractTable.mk (next_id rs) ca ua) (attrs i)])); [| lia].
    pose proof (next_id_above (rs ++ [mkRow (AbstractTable.mk (next_id rs) ca ua) (attrs i)])) as A.
    unfold ids in A. rewrite map_app, Forall_app in A. destruct A as [_ A].
    inversion A; subst. assumption.
Qed.

Lemma inserted_created_at rs t pending news m t' :
  inserted violates rs t pending news m t' ->
  StronglySorted Z.le (map row_created_at rs) ->
  Forall (fun r => row_created_at r <= t) rs ->
  StronglySorted Z.le (map row_created_at (rs ++ news)) /\
  Forall (fun r => row_created_at r <= t') (rs ++ news).
Proof.
  induction 1 as [| rs t i pending ca ua news m t' H1 H2 V I IH]; intros S F.
  - rewrite app_nil_r. split; assumption.
  - rewrite (app_assoc rs [_] news : rs ++ _ :: news = _).
    apply IH.
    + rewrite map_app. cbn. apply StronglySorted_snoc; [exact S |].
      rewrite Forall_map. eapply Forall_impl; [exact F |].
      cbn. unfold row_created_at. cbn. intros; lia.
    + rewrite Forall_app. split.
      * eapply Forall_impl; [exact F |]. cbn. intros; lia.
      * repeat constructor. unfold row_created_at. cbn. lia.
Qed.

End Inserted.

(** With the uniqueness constraint the order numbers stay distinct. *)
Lemma inserted_order_numbers rs t pending news m t' :
  inserted order_number_taken rs t pending news m t' ->
  NoDup (map (fun r => Order.order_number (cols r)) rs) ->
  NoDup (map (fun r => Order.order_number (cols r)) (rs ++ news)).
Proof.
  induction 1 as [| rs t i pending ca ua news m t' H1 H2 V I IH]; intros N.
  - rewrite app_nil_r. exact N.
  - rewrite (app_assoc rs [_] news : rs ++ _ :: news = _).
    apply IH. rewrite map_app. cbn.
    apply NoDup_app. split; [exact N |]. split.
    + intros x Hx Hx'. apply list_elem_of_singleton in Hx'. subst x.
      unfold order_number_taken in V.
      apply bool_decide_eq_false in V. contradiction.
    + apply NoDup_singleton.
Qed.

(** *** The flush *)

Lemma insert_all_run {C} (violates : list (Row C) -> C -> bool)
    (pending : list (instance C)) table m0 w r w1 :
  insert_all violates table pending m0 w = (r, w1) ->
  later w w1 /\
  match r with
  | Return (table', m') =>
      exists news m,
        inserted violates (rows table) (clock w) pending news m (clock w1) /\
        rows table' = rows table ++ news /\ m' = m0 ++ m
  | Raise _ => True
  end.
Proof.
  intros E. split.
  - pose proof (insert_all_later violates pending table m0 w) as L.
    rewrite E in L. exact L.
  - destruct r as [e | [table' m']]; [exact I |].
    destruct (insert_all_Return violates pending table m0 w table' m')
      as (news & m & H1 & H2 & H3 & _); [rewrite E; reflexivity |].
    rewrite E in H1. exists news, m. auto.
Qed.

Lemma flush_run (pending : list Obj) (s : Store) (w : World) :
  later w (snd (flush pending s w)) /\
  match fst (flush pending s w) with
  | Return s' => flushed pending s (clock w) s' (clock (snd (flush pending s w)))
  | Raise _ => True
  end.
Proof.
  unfold flush, and_then.
  destruct (insert_all no_constraint (suppliers s) _ [] w)
    as [[e1 | [ts sm]] w1] eqn:E1;
    apply insert_all_run in E1; destruct E1 as [L1 K1]; cbn [fst snd].
  { split; [exact L1 | exact I]. }
  destruct (insert_all no_constraint (products s) _ [] w1)
    as [[e2 | [tp pm]] w2] eqn:E2;
    apply insert_all_run in E2; destruct E2 as [L2 K2]; cbn [fst snd].
  { split; [eapply later_trans; eassumption | exact I]. }
  destruct (insert_all order_number_taken (orders s) _ [] w2)
    as [[e3 | [to om]] w3] eqn:E3;
    apply insert_all_run in E3; destruct E3 as [L3 K3]; cbn [fst snd].
  { split; [repeat (eapply later_trans; [eassumption |]); apply later_refl | exact I]. }
  destruct (insert_all no_constraint (order_items s) _ [] w3)
    as [[e4 | [ti im]] w4] eqn:E4;
    apply insert_all_run in E4; destruct E4 as [L4 K4]; cbn [fst snd].
  { split; [repeat (eapply later_trans; [eassumption |]); apply later_refl | exact I]. }
  unfold ret. cbn [fst snd].
  split; [repeat (eapply later_trans; [eassumption |]); apply later_refl |].
  destruct K1 as (newS & sm' & I1 & R1 & ->).
  destruct K2 as (newP & pm' & I2 & R2 & ->).
  destruct K3 as (newO & om' & I3 & R3 & ->).
  destruct K4 as (newI & im' & I4 & R4 & ->).
  cbn [app] in *.
  eapply flushed_intro; cbn [suppliers products orders order_items]; eassumption.
Qed.

(** [session.commit()] either raises and leaves the store as it was, or
    stores what the flush made. *)
Lemma commit_run (session : Session) (w : World) :
  match commit session w with
  | (Raise e, w') => later w w'
  | (Return _, w') =>
      exists s' w1, later w w1 /\ w' = set_store s' w1 /\
                    flushed (new session) (store w) (clock w) s' (clock w1)
  end.
Proof.
  unfold commit. destruct (flush_run (new session) (store w) w) as [L K].
  destruct (flush (new session) (store w) w) as [[e | s'] w1]; cbn [fst snd] in *.
  - exact L.
  - exists s', w1. auto.
Qed.

(** *** The keys recorded for the pending objects *)

Lemma lookup_ref_in (m : id_map) (r : Ref) (k : Z) :
  lookup_ref m r = Some k -> (r, k) ∈ m.
Proof.
  induction m as [| [r' k'] m IH]; cbn; [discriminate |].
  destruct (Nat.eqb_spec r' r) as [-> | Hne].
  - intros [= ->]. left.
  - intros H. right. apply IH. exact H.
Qed.

Lemma lookup_ref_found (m : id_map) (r : Ref) :
  r ∈ map fst m -> exists k, lookup_ref m r = Some k.
Proof.
  induction m as [| [r' k'] m IH]; cbn; intros H.
  - inversion H.
  - destruct (Nat.eqb_spec r' r) as [-> | Hne]; [eauto |].
    apply IH. inversion H; subst; [congruence | assumption].
Qed.

Lemma lookup_ref_iff (m : id_map) (r : Ref) (k : Z) :
  NoDup (map fst m) -> NoDup (map snd m) -> (r, k) ∈ m ->
  forall o, lookup_ref m o = Some k <-> o = r.
Proof.
  induction m as [| [r' k'] m IH]; cbn; intros N1 N2 H o.
  - inversion H.
  - inversion N1 as [| ? ? N1a N1b]; subst.
    inversion N2 as [| ? ? N2a N2b]; subst.
    assert (In1 : forall a b, (a, b) ∈ m -> a ∈ map fst m).
    { intros a b Hab. apply list_elem_of_fmap. exists (a, b). auto. }
    assert (In2 : forall a b, (a, b) ∈ m -> b ∈ map snd m).
    { intros a b Hab. apply list_elem_of_fmap. exists (a, b). auto. }
    apply elem_of_cons in H. destruct H as [[= <- <-] | H'].
    + destruct (Nat.eqb_spec r o) as [-> | Hne]; [split; auto |].
      split; [| congruence].
      intros L. apply lookup_ref_in in L. exfalso. eauto.
    + destruct (Nat.eqb_spec r' o) as [-> | Hne]; [| apply IH; assumption].
      split.
      * intros [= ->]. exfalso. eauto.
      * intros ->. exfalso. eauto.
Qed.

Lemma totals_for_app k a b :
  totals_for k (a ++ b) = totals_for k a ++ totals_for k b.
Proof. unfold totals_for. rewrite filter_app, map_app. reflexivity. Qed.

Lemma line_totals_items_of (s : Store) (o : Row Order.t) :
  line_totals (items_of s o) = totals_for (row_id o) (map cols (rows (order_items s))).
Proof.
  unfold line_totals, items_of, totals_for.
  induction (rows (order_items s)) as [| i l IH]; [reflexivity |].
  cbn [map]. rewrite !filter_cons.
  destruct (decide (OrderItem.order_id (cols i) = Some (row_id o))); cbn; congruence.
Qed.

Lemma totals_for_none k cs :
  Forall (fun c => OrderItem.order_id c <> Some k) cs -> totals_for k cs = [].
Proof.
  unfold totals_for. induction 1 as [| c l H F IH]; [reflexivity |].
  rewrite filter_cons. destruct (decide _); [contradiction | exact IH].
Qed.

Lemma totals_for_linked (om pm : id_map) (r : Ref) (k : Z)
    (items : list (instance OrderItem.t * Ref * Ref)) :
  (forall o, lookup_ref om o = Some k <-> o = r) ->
  totals_for k (map attrs (map (link_item om pm) items))
  = map (fun x => OrderItem.total_price (attrs x.1.1))
        (filter (fun x => x.1.2 = r) items).
Proof.
  intros H. unfold totals_for.
  induction items as [| [[it o] p] l IH]; [reflexivity |].
  cbn [map link_item attrs]. rewrite !filter_cons. cbn [fst snd OrderItem.set_keys OrderItem.order_id].
  destruct (decide (lookup_ref om o = Some k)) as [Y | N],
           (decide (o = r)) as [Y' | N']; cbn [map].
  - rewrite IH. reflexivity.
  - apply H in Y. contradiction.
  - apply H in Y'. contradiction.
  - exact IH.
Qed.

Lemma StronglySorted_lt_NoDup (l : list Z) : StronglySorted Z.lt l -> NoDup l.
Proof.
  induction 1 as [| a l S IH F]; constructor; [| exact IH].
  intros H. rewrite Forall_forall in F. specialize (F a H). lia.
Qed.

Lemma NoDup_app_r {A} (l k : list A) : NoDup (l ++ k) -> NoDup k.
Proof. rewrite NoDup_app. tauto. Qed.

Lemma Forall2_transfer {A B} (R : A -> B -> Prop) (P : A -> Prop)
    (Q : B -> Prop) (l : list A) (k : list B) :
  Forall2 R l k -> Forall P l -> (forall x y, R x y -> P x -> Q y) ->
  Forall Q k.
Proof.
  intros F2 F H. induction F2 as [| x y l k Rxy F2 IH]; constructor.
  - inversion F; subst. eauto.
  - inversion F; subst. auto.
Qed.

Lemma line_total_ok_set_keys (i : OrderItem.t) (o p : option Z) :
  line_total_ok (OrderItem.set_keys i o p) = line_total_ok i.
Proof. reflexivity. Qed.

(** The flush keeps the invariant, for a pending set the workflow has built
    as [pending_ok] says. *)
Lemma flushed_inv (pending : list Obj) (s s' : Store) (t t' : datetime) :
  store_inv s ->
  Forall (fun o => row_created_at o <= t) (rows (orders s)) ->
  pending_ok pending ->
  flushed pending s t s' t' ->
  store_inv s' /\ Forall (fun o => row_created_at o <= t') (rows (orders s')).
Proof.
  intros Inv Fc Pok Fl.
  destruct Fl as [newS sm newP pm newO om newI im t1 t2 t3 I1 I2 I3 I4 RS RP RO RI].
  destruct Inv as [Iids Inum Ires Ilin Itot Icre].
  destruct Pok as [Prefs Ptot Pirefs Plin].
  pose proof (inserted_clock _ _ _ _ _ _ _ I1) as C1.
  pose proof (inserted_clock _ _ _ _ _ _ _ I2) as C2.
  pose proof (inserted_clock _ _ _ _ _ _ _ I3) as C3.
  pose proof (inserted_clock _ _ _ _ _ _ _ I4) as C4.
  destruct (inserted_ids _ _ _ _ _ _ _ I3 Iids) as [S3 F3].
  destruct (inserted_map _ _ _ _ _ _ _ I3) as [M3a M3b].
  destruct (inserted_map _ _ _ _ _ _ _ I2) as [M2a M2b].
  pose proof (inserted_rows _ _ _ _ _ _ _ I3) as R3.
  pose proof (inserted_cols _ _ _ _ _ _ _ I4) as K4.
  assert (Nfst : NoDup (map fst om)) by (rewrite M3a; exact Prefs).
  assert (Nsnd : NoDup (map snd om)).
  { rewrite M3b. apply StronglySorted_lt_NoDup in S3.
    unfold ids in *. rewrite map_app in S3. eapply NoDup_app_r. exact S3. }
  assert (Above : forall r k, lookup_ref om r = Some k ->
                              k ∈ ids newO /\ next_id (rows (orders s)) <= k).
  { intros r k L. apply lookup_ref_in in L.
    assert (k ∈ ids newO).
    { rewrite <- M3b. apply list_elem_of_fmap. exists (r, k). auto. }
    split; [assumption |]. rewrite Forall_forall in F3. auto. }
  assert (Old : forall k, k ∈ ids (rows (orders s)) -> k < next_id (rows (orders s))).
  { intros k. pose proof (next_id_above (rows (orders s))) as A.
    rewrite Forall_forall in A. apply A. }
  assert (Pm : map fst pm = map (fun p => ref p.1) (pending_products pending)).
  { rewrite M2a. rewrite map_map. reflexivity. }
  (* what the new item rows hold *)
  assert (NewItems :
    Forall (fun c =>
              ((exists k, OrderItem.order_id c = Some k /\ k ∈ ids newO) /\
               (exists k, OrderItem.product_id c = Some k /\ k ∈ ids newP)) /\
              line_total_ok c = true)
           (map cols newI)).
  { rewrite K4, map_map, Forall_map.
    rewrite Forall_forall in Pirefs, Plin. apply Forall_forall.
    intros [[it o] p] Hx. specialize (Pirefs _ Hx). specialize (Plin _ Hx).
    cbn [fst snd] in *. destruct Pirefs as [Ho Hp].
    cbn [link_item attrs OrderItem.set_keys OrderItem.order_id OrderItem.product_id].
    rewrite <- M3a in Ho. rewrite <- Pm in Hp.
    destruct (lookup_ref_found _ _ Ho) as [ko Lo].
    destruct (lookup_ref_found _ _ Hp) as [kp Lp].
    split; [split |].
    - exists ko. split; [exact Lo | apply (Above _ _ Lo)].
    - exists kp. split; [exact Lp |].
      rewrite <- M2b. apply lookup_ref_in in Lp.
      apply list_elem_of_fmap. exists (p, kp). auto.
    - exact Plin. }
  rewrite Forall_map in NewItems.
  split; [constructor |].
  - rewrite RO. exact S3.
  - unfold order_numbers. rewrite RO.
    eapply inserted_order_numbers; eassumption.
  - rewrite RI. apply Forall_app. split.
    + eapply Forall_impl; [exact Ires |]. cbn.
      intros i [(k & E & Hk) (k' & E' & Hk')]. split.
      * exists k. split; [exact E |]. rewrite RO. unfold ids in *.
        rewrite map_app. apply elem_of_app. auto.
      * exists k'. split; [exact E' |]. rewrite RP. unfold ids in *.
        rewrite map_app. apply elem_of_app. auto.
    + eapply Forall_impl; [exact NewItems |]. cbn.
      intros i [[(k & E & Hk) (k' & E' & Hk')] _]. split.
      * exists k. split; [exact E |]. rewrite RO. unfold ids in *.
        rewrite map_app. apply elem_of_app. auto.
      * exists k'. split; [exact E' |]. rewrite RP. unfold ids in *.
        rewrite map_app. apply elem_of_app. auto.
  - rewrite RI. apply Forall_app. split; [exact Ilin |].
    eapply Forall_impl; [exact NewItems |]. cbn. tauto.
  - rewrite RO. apply Forall_app. split.
    + (* the orders that were there: none of the new items is theirs *)
      rewrite Forall_forall in Itot. apply Forall_forall. intros o Ho.
      specialize (Itot o Ho). unfold total_amount_ok in *.
      rewrite line_totals_items_of in *. rewrite RI, map_app, totals_for_app.
      rewrite (totals_for_none _ (map cols newI)), app_nil_r; [exact Itot |].
      rewrite Forall_map. eapply Forall_impl; [exact NewItems |]. cbn.
      intros i [[(k & E & Hk) _] _] E2. rewrite E in E2. injection E2 as ->.
      assert (row_id o ∈ ids (rows (orders s))).
      { apply list_elem_of_fmap. exists o. auto. }
      rewrite Forall_forall in F3. specialize (F3 _ Hk).
      specialize (Old _ H). lia.
    + (* the new orders: their items are the new items linked to them *)
      eapply Forall2_transfer; [exact R3 | exact Ptot |]. cbn.
      intros inst o [Ec Hm] [Et Enan].
      unfold total_amount_ok. rewrite line_totals_items_of.
      rewrite RI, map_app, totals_for_app.
      rewrite (totals_for_none _ (map cols (rows (order_items s)))).
      2:{ rewrite Forall_map. eapply Forall_impl; [exact Ires |]. cbn.
          intros i [(k & E & Hk) _] E2. rewrite E in E2. injection E2 as ->.
          specialize (Old _ Hk).
          assert (row_id o ∈ ids newO).
          { rewrite <- M3b. apply list_elem_of_fmap. exists (ref inst, row_id o). auto. }
          rewrite Forall_forall in F3. specialize (F3 _ H). lia. }
      cbn [app]. rewrite K4.
      rewrite (totals_for_linked om pm (ref inst) (row_id o)).
      2:{ apply lookup_ref_iff; assumption. }
      fold (pending_totals (ref inst) pending).
      rewrite Ec, <- Et. exact Enan.
  - rewrite RO. eapply inserted_created_at; [exact I3 | exact Icre |].
    eapply Forall_impl; [exact Fc |]. cbn. intros; lia.
  - rewrite RO.
    assert (G : Forall (fun o => row_created_at o <= t3)
                       (rows (orders s) ++ newO)).
    { eapply inserted_created_at; [exact I3 | exact Icre |].
      eapply Forall_impl; [exact Fc |]. cbn. intros; lia. }
    eapply Forall_impl; [exact G |]. cbn. intros; lia.
Qed.

End FlushFacts.

(* ===================================================================== *)
(** ** The workflow of [fill_with_sample_data] *)
(* ===================================================================== *)

Module WorkflowFacts.
Import FlushFacts.

Lemma get_session_run (w : World) :
  exists e d, get_session w = (Return (mkSession e []), set_db d w).
Proof.
  unfold get_session, and_then, ret.
  destruct (SessionLocal (db w)) as [f |] eqn:E; cbn.
  - rewrite E. exists (bind f), (db w). destruct w; reflexivity.
  - eexists _, _. reflexivity.
Qed.

Lemma add_fresh (s : Session) (o : Obj) :
  obj_ref o ∉ map obj_ref (new s) ->
  add s o = mkSession (session_bind s) (new s ++ [o]).
Proof. intros H. unfold add. rewrite bool_decide_eq_false_2; auto. Qed.

(** Adding an object that is pending already changes nothing. *)
Lemma add_twice (s : Session) (o : Obj) : add (add s o) o = add s o.
Proof.
  destruct (bool_decide (obj_ref o ∈ map obj_ref (new s))) eqn:E.
  - assert (A : add s o = s) by (unfold add; rewrite E; reflexivity).
    rewrite !A. reflexivity.
  - assert (A : add s o = mkSession (session_bind s) (new s ++ [o]))
      by (unfold add; rewrite E; reflexivity).
    rewrite A. unfold add. cbn [new]. rewrite bool_decide_eq_true_2; [reflexivity |].
    rewrite map_app. apply elem_of_app. right. cbn. left.
Qed.

Ltac fresh_ref :=
  cbn [map obj_ref new ref app]; intros Hin;
  repeat (apply elem_of_cons in Hin; destruct Hin as [Hin | Hin]; [lia |]);
  apply elem_of_nil in Hin; exact Hin.

(** The workflow up to the commit: the session holds [sample_pending], two
    readings of the random source and ten identities were used. *)
Lemma fill_run (w : World) :
  exists e d,
    fill_with_sample_data w =
    match
      commit
        (mkSession e
           (sample_pending (next_ref w)
              (OrderNumber.generate_order_number
                 (OrderNumber.uuid4_int (entropy w 0%nat)))
              (OrderNumber.generate_order_number
                 (OrderNumber.uuid4_int (entropy w 1%nat)))))
        (mkWorld d (store w) (fun n => entropy w (S (S n))) (clock w)
                 (ticks w) (10 + next_ref w)%nat (stdout w) (files w))
    with
    | (Raise x, w') => (Raise x, w')
    | (Return _, w') => print "Данные из Waosa Club добавлены" w'
    end.
Proof.
  unfold fill_with_sample_data, and_then.
  destruct (get_session_run w) as (e & d & ->). exists e, d.
  destruct w as [db0 st e0 c0 k0 n out fs].
  assert (E1 : float_mul_int 100 2 = Return 200%float) by (vm_compute; reflexivity).
  assert (E2 : float_mul_int 200 1 = Return 200%float) by (vm_compute; reflexivity).
  assert (E3 : float_mul_int 150 3 = Return 450%float) by (vm_compute; reflexivity).
  assert (E4 : float_mul_int 100 1 = Return 100%float) by (vm_compute; reflexivity).
  cbn -[add commit OrderNumber.generate_order_number OrderNumber.uuid4_int].
  unfold and_then, lift. rewrite E1, E2, E3, E4.
  cbn -[add commit OrderNumber.generate_order_number OrderNumber.uuid4_int].
  do 10 (rewrite (add_fresh (mkSession _ _)) by fresh_ref;
         cbn [new session_bind app]).
  reflexivity.
Qed.

Lemma sample_pending_ok (n : Ref) (a b : string) : pending_ok (sample_pending n a b).
Proof.
  constructor.
  - cbn. repeat constructor; rewrite ?elem_of_cons, ?elem_of_nil; lia.
  - unfold pending_totals. cbn [sample_pending pending_orders pending_items omap].
    cbn -[filter].
    constructor; [| constructor; [| constructor]];
      cbn [ref attrs Order.total_amount];
      rewrite !filter_cons, filter_nil; cbn [fst snd];
      repeat (destruct (decide _) as [? | ?]; try lia);
      split; reflexivity.
  - cbn. repeat constructor.
  - cbn. repeat constructor.
Qed.

(** *** Computations that keep the invariant *)

Lemma world_inv_frame (w w' : World) :
  rows (orders (store w')) = rows (orders (store w)) ->
  rows (order_items (store w')) = rows (order_items (store w)) ->
  rows (products (store w')) = rows (products (store w)) ->
  clock w <= clock w' ->
  world_inv w -> world_inv w'.
Proof.
  intros Eo Ei Ep Hc [[Iids Inum Ires Ilin Itot Icre] Fc].
  split; [constructor |].
  - rewrite Eo. exact Iids.
  - unfold order_numbers in *. rewrite Eo. exact Inum.
  - rewrite Ei. unfold item_resolves in *. rewrite Eo, Ep. exact Ires.
  - rewrite Ei. exact Ilin.
  - rewrite Eo. unfold total_amount_ok, items_of in *. rewrite Ei. exact Itot.
  - rewrite Eo. exact Icre.
  - rewrite Eo. eapply Forall_impl; [exact Fc |]. cbn. intros; lia.
Qed.

Lemma world_inv_initial (e : nat -> Z) (t0 : datetime) (k : nat -> N) :
  world_inv (initial_world e t0 k).
Proof. split; [constructor |]; cbn; constructor. Qed.

Lemma quiet_preserves {A} (m : M A) : quiet m -> preserves m.
Proof.
  intros Q w I. destruct (Q w) as [Es Ec].
  eapply world_inv_frame; [.. | exact I]; rewrite ?Es; try reflexivity. lia.
Qed.

Lemma quiet_and_then {A B} (m : M A) (k : A -> M B) :
  quiet m -> (forall a, quiet (k a)) -> quiet (and_then m k).
Proof.
  intros Qm Qk w. unfold and_then. specialize (Qm w).
  destruct (m w) as [[e | a] w1]; cbn [snd] in *; [exact Qm |].
  destruct (Qk a w1) as [Es Ec]. destruct Qm as [Es' Ec'].
  split; congruence.
Qed.

Lemma preserves_and_then {A B} (m : M A) (k : A -> M B) :
  preserves m -> (forall a, preserves (k a)) -> preserves (and_then m k).
Proof.
  intros Pm Pk w I. unfold and_then. specialize (Pm w I).
  destruct (m w) as [[e | a] w1]; cbn [snd] in *; [exact Pm |].
  apply Pk. exact Pm.
Qed.

Lemma quiet_ret {A} (a : A) : quiet (ret a).
Proof. intros w. split; reflexivity. Qed.

Lemma quiet_raise {A} (e : exn) : quiet (@raise A e).
Proof. intros w. split; reflexivity. Qed.

Lemma quiet_print (line : string) : quiet (print line).
Proof. intros w. split; reflexivity. Qed.

Lemma quiet_connect : quiet connect.
Proof. intros w. split; reflexivity. Qed.

Lemma quiet_get_session : quiet get_session.
Proof.
  intros w. destruct (get_session_run w) as (e & d & ->). split; reflexivity.
Qed.

Lemma quiet_close (s : Session) : quiet (close s).
Proof. apply quiet_ret. Qed.

Lemma quiet_query_orders : quiet query_orders.
Proof. intros w. unfold query_orders. destruct (orders (store w)); split; reflexivity. Qed.

Lemma quiet_query_items (k : Z) : quiet (query_items_by_order k).
Proof.
  intros w. unfold query_items_by_order.
  destruct (order_items (store w)); split; reflexivity.
Qed.

Lemma quiet_query_product (k : option Z) : quiet (query_product_first k).
Proof.
  intros w. unfold query_product_first.
  destruct (products (store w)); split; reflexivity.
Qed.

Lemma quiet_save (doc : document) (filename : string) : quiet (save doc filename).
Proof. intros w. split; reflexivity. Qed.

Ltac quiet_steps :=
  repeat first
    [ apply quiet_ret | apply quiet_raise | apply quiet_print
    | apply quiet_get_session | apply quiet_close | apply quiet_query_orders
    | apply quiet_query_items | apply quiet_query_product | apply quiet_save
    | assumption
    | apply quiet_and_then; [| intros ?] ].

Lemma quiet_get_all_orders : quiet get_all_orders.
Proof. unfold get_all_orders. quiet_steps. Qed.

Section QuietFormatting.
Variable float_str : float -> string.

Lemma quiet_display_items (items : list (Row OrderItem.t)) :
  quiet (display_items float_str items).
Proof.
  induction items as [| i l IH]; cbn [display_items]; [apply quiet_ret |].
  apply quiet_and_then; [apply quiet_query_product |].
  intros [p |]; [| apply quiet_raise].
  apply quiet_and_then; [apply quiet_print | intros _; exact IH].
Qed.

Lemma quiet_display_each (orders : list (Row Order.t)) :
  quiet (display_each float_str orders).
Proof.
  induction orders as [| o l IH]; cbn [display_each]; [apply quiet_ret |].
  quiet_steps. apply quiet_display_items.
Qed.

Lemma quiet_display_orders : quiet (display_orders float_str).
Proof.
  unfold display_orders.
  apply quiet_and_then; [apply quiet_get_all_orders | intros ?].
  apply quiet_and_then; [apply quiet_print | intros ?].
  apply quiet_display_each.
Qed.

Lemma quiet_export (orders : list (Row Order.t)) (filename : string) :
  quiet (export_orders_to_odt float_str orders filename).
Proof.
  unfold export_orders_to_odt.
  apply quiet_and_then; [apply quiet_save | intros _; apply quiet_print].
Qed.

End QuietFormatting.

Lemma preserves_create_tables : preserves create_tables.
Proof.
  intros w I. destruct (GatewayFacts.create_tables_returns w) as [_ Es].
  assert (Ec : clock (snd (create_tables w)) = clock w).
  { unfold create_tables, and_then, ret.
    destruct (engine (db w)) eqn:He; cbn; rewrite ?He; reflexivity. }
  eapply world_inv_frame; [.. | exact I]; rewrite ?Es, ?Ec; try reflexivity.
Qed.

(** The workflow keeps the invariant, whether the commit goes through or
    raises. *)
Lemma preserves_fill : preserves fill_with_sample_data.
Proof.
  intros w I. destruct (fill_run w) as (e & d & ->).
  set (w2 := mkWorld _ _ _ _ _ _ _ _).
  assert (I2 : world_inv w2).
  { eapply world_inv_frame; [.. | exact I]; reflexivity. }
  pose proof (commit_run (mkSession e (sample_pending (next_ref w)
     (OrderNumber.generate_order_number (OrderNumber.uuid4_int (entropy w 0%nat)))
     (OrderNumber.generate_order_number (OrderNumber.uuid4_int (entropy w 1%nat)))))
     w2) as K.
  destruct (commit _ w2) as [[x | u] w3]; cbn [snd].
  - destruct K as (_ & Es & _ & _ & _ & _ & Hc).
    eapply world_inv_frame; [.. | exact I2]; rewrite ?Es; try reflexivity. exact Hc.
  - destruct K as (s' & w1 & L & -> & Fl). destruct I2 as [Is Fc].
    destruct (flushed_inv _ _ _ _ _ Is Fc (sample_pending_ok _ _ _) Fl) as [Is' Fc'].
    split; cbn; assumption.
Qed.

Lemma preserves_main (float_str : float -> string) : preserves (main float_str).
Proof.
  unfold main.
  apply preserves_and_then.
  { apply quiet_preserves. intros w. split; reflexivity. }
  intros _. apply preserves_and_then; [apply preserves_create_tables |].
  intros _. apply preserves_and_then; [apply preserves_fill |].
  intros _. apply preserves_and_then;
    [apply quiet_preserves, quiet_display_orders |].
  intros _. apply preserves_and_then;
    [apply quiet_preserves, quiet_get_all_orders |].
  intros orders. apply preserves_and_then;
    [apply quiet_preserves, quiet_export |].
  intros _. apply quiet_preserves, quiet_print.
Qed.

Lemma preserves_exec (float_str : float -> string) (op : Op) :
  preserves (exec float_str op).
Proof.
  destruct op; cbn [exec].
  - apply quiet_preserves. quiet_steps; apply quiet_connect.
  - apply quiet_preserves. quiet_steps.
  - apply preserves_create_tables.
  - apply preserves_fill.
  - apply quiet_preserves. quiet_steps; apply quiet_get_all_orders.
  - apply quiet_preserves, quiet_display_orders.
  - apply quiet_preserves.
    apply quiet_and_then; [apply quiet_get_all_orders | intros ?; apply quiet_export].
  - apply preserves_main.
Qed.

Lemma run_inv (float_str : float -> string) (ops : list Op) (w : World) :
  world_inv w -> world_inv (run float_str ops w).
Proof.
  unfold run. revert w. induction ops as [| op l IH]; intros w I; [exact I |].
  cbn [foldl]. apply IH. apply preserves_exec. exact I.
Qed.

(** Every world the program can reach from a database without tables
    satisfies the invariant. *)
Lemma reachable_inv (float_str : float -> string) (ops : list Op)
    (e : nat -> Z) (t0 : datetime) (k : nat -> N) :
  world_inv (run float_str ops (initial_world e t0 k)).
Proof. apply run_inv, world_inv_initial. Qed.

(** *** When the workflow raises *)

Lemma insert_all_raises {C} (violates : list (Row C) -> C -> bool)
    (pending : list (instance C)) :
  forall table m w x,
    fst (insert_all violates table pending m w) = Raise x ->
    x = OperationalError \/ x = IntegrityError.
Proof.
  induction pending as [| i l IH]; intros table m w x H; [discriminate |].
  cbn [insert_all] in H. unfold and_then in H.
  destruct (insert_row_cases violates table (attrs i) w) as (_ & _ & K).
  destruct (insert_row violates table (attrs i) w) as [[e | kr] w1];
    cbn [fst snd] in *.
  - injection H as <-. exact K.
  - eapply IH. exact H.
Qed.

Lemma flush_raises (pending : list Obj) (s : Store) (w : World) (x : exn) :
  fst (flush pending s w) = Raise x ->
  x = OperationalError \/ x = IntegrityError.
Proof.
  unfold flush, and_then.
  repeat match goal with
         | |- context [insert_all ?v ?t ?p ?m ?w] =>
             let E := fresh "E" in
             pose proof (insert_all_raises v p t m w) as E;
             destruct (insert_all v t p m w) as [[? | ?] ?]; cbn [fst snd] in *;
             [intros [= <-]; apply E; reflexivity |]
         end.
  discriminate.
Qed.

(** The workflow raises only what the commit raises, and then the store is
    the one it started from. *)
Lemma fill_raises (w : World) (x : exn) :
  fst (fill_with_sample_data w) = Raise x ->
  store (snd (fill_with_sample_data w)) = store w /\
  (x = OperationalError \/ x = IntegrityError).
Proof.
  destruct (fill_run w) as (e & d & ->).
  set (w2 := mkWorld _ _ _ _ _ _ _ _).
  set (session := mkSession _ _).
  pose proof (commit_run session w2) as K.
  pose proof (flush_raises (new session) (store w2) w2) as R.
  unfold commit in *.
  destruct (flush (new session) (store w2) w2) as [[y | s'] w3]; cbn [fst snd] in *.
  - intros [= <-]. split; [| apply R; reflexivity].
    destruct K as (_ & Es & _). rewrite Es. reflexivity.
  - discriminate.
Qed.


End WorkflowFacts.

(* ===================================================================== *)
(** ** The ledger: what holds of every store the program reaches *)
(* ===================================================================== *)

Module LedgerFacts.
Import FlushFacts WorkflowFacts.

(** C1: in every world the program reaches from a database without tables,
    whatever operations ran and in whatever order, each persisted order's
    [total_amount] equals ([==]) the sum of the line totals of its items. *)
Theorem total_amount_is_sum_of_lines (float_str : float -> string)
    (ops : list Op) (e : nat -> Z) (t0 : datetime) (k : nat -> N) :
  let s := store (run float_str ops (initial_world e t0 k)) in
  Forall (fun o => total_amount_ok s o = true) (rows (orders s)).
Proof.
  cbv zeta. destruct (reachable_inv float_str ops e t0 k) as [I _].
  exact (inv_totals _ I).
Qed.

(** C2: in every such world each persisted item's [total_price] equals
    ([==]) its quantity times its unit price. *)
Theorem line_total_is_quantity_times_price (float_str : float -> string)
    (ops : list Op) (e : nat -> Z) (t0 : datetime) (k : nat -> N) :
  let s := store (run float_str ops (initial_world e t0 k)) in
  Forall (fun i => line_total_ok (cols i) = true) (rows (order_items s)).
Proof.
  cbv zeta. destruct (reachable_inv float_str ops e t0 k) as [I _].
  exact (inv_lines _ I).
Qed.

(** C3 as stated fails: when the random source yields the same bits twice,
    the second order gets the number the first one has, without a check or
    a retry; the commit then raises [IntegrityError] and the store is left
    as it was. *)
Lemma order_number_collision_not_retried :
  let w := snd (create_tables (initial_world stuck_entropy 0 (fun _ => 1%N))) in
  match fst (create_orders
               (sample_orders_data (mkInstance 1%nat product_A)
                  (mkInstance 2%nat product_B) (mkInstance 3%nat product_C))
               (mkSession (create_engine "sqlite:///waosa.db") [])
               (set_next_ref 4%nat w)) with
  | Return session =>
      map (fun o => Order.order_number (attrs o)) (pending_orders (new session))
  | Raise _ => []
  end = ["ORD-00000000"; "ORD-00000000"] /\
  fst (fill_with_sample_data w) = Raise IntegrityError /\
  store (snd (fill_with_sample_data w)) = store w /\
  rows (orders (store (snd (fill_with_sample_data w)))) = [].
Proof. cbv zeta. repeat split; vm_compute; reflexivity. Qed.

(** C3, as the code has it: the generated number is taken as it comes; the
    UNIQUE constraint of the [orders] table keeps the numbers of the
    persisted orders pairwise distinct in every world the program reaches. *)
Theorem persisted_order_numbers_distinct (float_str : float -> string)
    (ops : list Op) (e : nat -> Z) (t0 : datetime) (k : nat -> N) :
  NoDup (order_numbers (store (run float_str ops (initial_world e t0 k)))).
Proof.
  destruct (reachable_inv float_str ops e t0 k) as [I _].
  exact (inv_numbers _ I).
Qed.




(** The listing after [main]: both orders, in creation order. *)
Example get_all_orders_after_main :
  match fst (get_all_orders ReportFacts.after_main) with
  | Return l =>
      map (fun o => (Order.customer_name (cols o), row_created_at o)) l
  | Raise _ => []
  end = [("Alice Johnson", 1009); ("Bob Smith", 1011)].
Proof. vm_compute. reflexivity. Qed.

Ltac invert_inserted H :=
  lazymatch type of H with
  | inserted _ _ _ [] _ _ _ => inversion H; subst; clear H
  | inserted _ _ _ (_ :: _) _ _ _ =>
      let I := fresh "I" in
      inversion H as [| ? ? ? ? ? ? ? ? ? ? ? ? I]; subst; clear H;
      invert_inserted I
  end.

Lemma sample_pending_suppliers n a b :
  pending_suppliers (sample_pending n a b) = [mkInstance n sample_supplier].
Proof. reflexivity. Qed.

Lemma sample_pending_products n a b :
  pending_products (sample_pending n a b)
  = [ (mkInstance (1 + n)%nat product_A, n);
      (mkInstance (2 + n)%nat product_B, n);
      (mkInstance (3 + n)%nat product_C, n) ].
Proof. reflexivity. Qed.

Lemma sample_pending_orders n a b :
  pending_orders (sample_pending n a b)
  = [ mkInstance (4 + n)%nat
        (Order.mk a "Alice Johnson" (Some "alice@waosa.com") None 400 "completed");
      mkInstance (7 + n)%nat
        (Order.mk b "Bob Smith" (Some "bob@waosa.com") None 550 "completed") ].
Proof. reflexivity. Qed.

Lemma sample_pending_items n a b :
  pending_items (sample_pending n a b)
  = [ (mkInstance (5 + n)%nat (OrderItem.mk None None 2 100 200),
       (4 + n)%nat, (1 + n)%nat);
      (mkInstance (6 + n)%nat (OrderItem.mk None None 1 200 200),
       (4 + n)%nat, (2 + n)%nat);
      (mkInstance (8 + n)%nat (OrderItem.mk None None 3 150 450),
       (7 + n)%nat, (3 + n)%nat);
      (mkInstance (9 + n)%nat (OrderItem.mk None None 1 100 100),
       (7 + n)%nat, (1 + n)%nat) ].
Proof. reflexivity. Qed.

Ltac decide_refs :=
  repeat match goal with
         | |- context [Nat.eqb ?x ?x] => rewrite (Nat.eqb_refl x)
         | |- context [Nat.eqb ?x ?y] =>
             replace (Nat.eqb x y) with false
               by (symmetry; apply Nat.eqb_neq; lia)
         end.

Ltac simpl_ids :=
  repeat match goal with
         | |- context [next_id (?l ++ [mkRow (AbstractTable.mk ?k ?ca ?ua) ?c])] =>
             rewrite (next_id_snoc_eq l k ca ua c) by (simpl_ids; reflexivity)
         end.

(** What a run of the workflow that returns has added to the store. *)
Lemma fill_returns_shape (w : World) :
  world_inv w ->
  fst (fill_with_sample_data w) = Return tt ->
  sample_orders_created (store w) (store (snd (fill_with_sample_data w))).
Proof.
  intros [Inv Fc] H. unfold sample_orders_created.
  destruct (fill_run w) as (e & d & E). rewrite E in *. clear E.
  set (w2 := mkWorld _ _ _ _ _ _ _ _) in *.
  set (session := mkSession _ _) in *.
  pose proof (commit_run session w2) as K.
  destruct (commit session w2) as [[x | u] w3]; [discriminate |].
  destruct K as (s' & w1 & L & -> & Fl). cbn [snd print store set_stdout set_store].
  subst session. cbn [new] in Fl.
  set (n := next_ref w) in *.
  set (a := OrderNumber.generate_order_number _) in *.
  set (b := OrderNumber.generate_order_number _) in *.
  clearbody a b n.
  destruct Fl as [newS sm newP pm newO om newI im t1 t2 t3 I1 I2 I3 I4 RS RP RO RI].
  rewrite sample_pending_suppliers in I1.
  rewrite sample_pending_products in I2.
  rewrite sample_pending_orders in I3.
  rewrite sample_pending_items in I4.
  clear H L. subst w2. cbn [store clock] in *.
  invert_inserted I1. cbn [map link_product fst snd ref attrs] in I2.
  invert_inserted I2. invert_inserted I3.
  cbn [map link_item fst snd ref attrs] in I4.
  invert_inserted I4.
  revert RS RP RO RI. simpl_ids. intros RS RP RO RI.
  set (kO := next_id (rows (orders (store w)))) in *.
  set (kP := next_id (rows (products (store w)))) in *.
  assert (Old : Forall (fun i => forall k, OrderItem.order_id (cols i) = Some k -> k < kO)
                       (rows (order_items (store w)))).
  { eapply Forall_impl; [exact (inv_resolves _ Inv) |]. cbn.
    intros i [(k & Ek & Hk) _] k' Ek'. rewrite Ek in Ek'. injection Ek' as <-.
    pose proof (next_id_above (rows (orders (store w)))) as A.
    rewrite Forall_forall in A. apply A. exact Hk. }
  clearbody kO kP.
  do 5 eexists.
  split; [exact RP |]. split; [reflexivity |]. split; [exact RO |].
  unfold items_of. rewrite RI, !filter_app.
  cbn [row_id base AbstractTable.id cols attrs lookup_ref OrderItem.set_keys
       Order.customer_name Order.total_amount].
  cbn [Nat.add]. decide_refs.
  rewrite !(filter_none _ (rows (order_items (store w)))).
  2:{ eapply Forall_impl; [exact Old |]. cbn. intros i Hi Ei.
      specialize (Hi _ Ei). lia. }
  2:{ eapply Forall_impl; [exact Old |]. cbn. intros i Hi Ei.
      specialize (Hi _ Ei). lia. }
  rewrite !filter_cons, !filter_nil.
  cbn [cols OrderItem.order_id].
  repeat case_decide;
    try (exfalso; congruence); try (exfalso; simplify_eq; lia).
  cbn. repeat split.
Qed.

(** C5: whenever the workflow returns, in a world the program has reached,
    the store has gained the catalog of Product A at 100, B at 200 and C at
    150, the order for the items [(A, 2), (B, 1)] with [total_amount] 400
    and the order for the items [(C, 3), (A, 1)] with [total_amount] 550. *)
Theorem sample_orders_totals (float_str : float -> string)
    (ops : list Op) (e : nat -> Z) (t0 : datetime) (k : nat -> N) :
  let w := run float_str ops (initial_world e t0 k) in
  fst (fill_with_sample_data w) = Return tt ->
  sample_orders_created (store w) (store (snd (fill_with_sample_data w))).
Proof.
  cbv zeta. intros H. apply fill_returns_shape; [| exact H].
  apply reachable_inv.
Qed.

(** The theorem on the sample world, once the tables exist. *)
Lemma sample_orders_totals_witness :
  sample_orders_created
    (store (run float_str_whole [OpCreateTables] sample_world))
    (store (snd (fill_with_sample_data
                   (run float_str_whole [OpCreateTables] sample_world)))).
Proof.
  apply (sample_orders_totals float_str_whole [OpCreateTables]
           sample_entropy 1000 (fun _ => 1%N)).
  vm_compute. reflexivity.
Defined.

(** The totals and the line totals [main] leaves in the store. *)
Example totals_after_main :
  map (fun o => (Order.total_amount (cols o),
                 line_totals (items_of (store ReportFacts.after_main) o)))
      (rows (orders (store ReportFacts.after_main)))
  = [(400%float, [200%float; 200%float]); (550%float, [450%float; 100%float])].
Proof. vm_compute. reflexivity. Qed.

End LedgerFacts.

(* ===================================================================== *)
(** ** More on the order numbers *)
(* ===================================================================== *)

Module OrderNumberBits.
Import OrderNumber.

Lemma unhex_hex_digit (v : Z) :
  unhex (upper_ascii (hex_digit (v mod 16))) = v mod 16.
Proof.
  assert (H : 0 <= v mod 16 < 16) by (apply Z.mod_pos_bound; lia).
  assert (C : v mod 16 = 0 \/ v mod 16 = 1 \/ v mod 16 = 2 \/ v mod 16 = 3
           \/ v mod 16 = 4 \/ v mod 16 = 5 \/ v mod 16 = 6 \/ v mod 16 = 7
           \/ v mod 16 = 8 \/ v mod 16 = 9 \/ v mod 16 = 10 \/ v mod 16 = 11
           \/ v mod 16 = 12 \/ v mod 16 = 13 \/ v mod 16 = 14 \/ v mod 16 = 15)
    by lia.
  repeat (destruct C as [C | C]; [rewrite C; reflexivity |]).
  rewrite C; reflexivity.
Qed.

(** A nibble of [u] above bit 96 is a nibble of [number_bits u]. *)
Lemma nibble_of_number_bits (u j : Z) :
  0 <= j < 8 ->
  Z.shiftr u (96 + 4 * j) mod 16 = Z.shiftr (number_bits u) (4 * j) mod 16.
Proof.
  intros Hj. unfold number_bits.
  apply Z.bits_inj'. intros n Hn.
  change 16 with (2 ^ 4).
  destruct (Z.lt_ge_cases n 4) as [Hlt | Hge].
  - rewrite !Z.mod_pow2_bits_low by lia.
    rewrite !Z.shiftr_spec by lia.
    rewrite Z.mod_pow2_bits_low by lia.
    rewrite Z.shiftr_spec by lia. f_equal. lia.
  - rewrite !Z.mod_pow2_bits_high by lia. reflexivity.
Qed.

Lemma number_bits_of_nibbles (u v : Z) :
  (forall j, 0 <= j < 8 ->
             Z.shiftr u (96 + 4 * j) mod 16 = Z.shiftr v (96 + 4 * j) mod 16) ->
  number_bits u = number_bits v.
Proof.
  intros H. unfold number_bits.
  apply Z.bits_inj'. intros n Hn.
  destruct (Z.lt_ge_cases n 32) as [Hlt | Hge].
  - rewrite !Z.mod_pow2_bits_low by lia. rewrite !Z.shiftr_spec by lia.
    assert (Hj : 0 <= n / 4 < 8).
    { split; [apply Z.div_pos; lia | apply Z.div_lt_upper_bound; lia]. }
    specialize (H (n / 4) Hj).
    apply (f_equal (fun x => Z.testbit x (n mod 4))) in H.
    change 16 with (2 ^ 4) in H.
    assert (Hm : 0 <= n mod 4 < 4) by (apply Z.mod_pos_bound; lia).
    rewrite !Z.mod_pow2_bits_low in H by lia.
    rewrite !Z.shiftr_spec in H by lia.
    replace (n mod 4 + (96 + 4 * (n / 4))) with (n + 96) in H
      by (pose proof (Z.div_mod n 4); lia).
    exact H.
  - rewrite !Z.mod_pow2_bits_high by lia. reflexivity.
Qed.

(** [uuid4] sets the version and the variant in bits 48 to 79 and leaves
    the 32 leading bits of the random value as they are. *)
Lemma uuid4_int_number_bits (r : Z) : number_bits (uuid4_int r) = number_bits r.
Proof.
  unfold number_bits, uuid4_int.
  apply Z.bits_inj'. intros n Hn.
  destruct (Z.lt_ge_cases n 32) as [Hlt | Hge].
  - rewrite !Z.mod_pow2_bits_low by lia. rewrite !Z.shiftr_spec by lia.
    assert (M : forall c s, 0 <= c -> Z.log2 c < 16 -> 0 <= s <= 76 ->
                            Z.testbit (Z.shiftl c s) (n + 96) = false).
    { intros c s Hc Hl Hs. rewrite Z.shiftl_spec by lia.
      apply Z.bits_above_log2; lia. }
    rewrite Z.lor_spec, Z.land_spec, Z.lor_spec, Z.land_spec.
    rewrite !Z.lnot_spec by lia.
    rewrite !M by (cbn; lia).
    rewrite Z.mod_pow2_bits_low by lia.
    cbn. rewrite !orb_false_r, !andb_true_r. reflexivity.
  - rewrite !Z.mod_pow2_bits_high by lia. reflexivity.
Qed.

Lemma order_number_digits (u : Z) :
  generate_order_number u
  = String "O" (String "R" (String "D" (String "-"
      (String (upper_ascii (hex_digit (Z.shiftr u (96 + 4 * 7) mod 16)))
      (String (upper_ascii (hex_digit (Z.shiftr u (96 + 4 * 6) mod 16)))
      (String (upper_ascii (hex_digit (Z.shiftr u (96 + 4 * 5) mod 16)))
      (String (upper_ascii (hex_digit (Z.shiftr u (96 + 4 * 4) mod 16)))
      (String (upper_ascii (hex_digit (Z.shiftr u (96 + 4 * 3) mod 16)))
      (String (upper_ascii (hex_digit (Z.shiftr u (96 + 4 * 2) mod 16)))
      (String (upper_ascii (hex_digit (Z.shiftr u (96 + 4 * 1) mod 16)))
      (String (upper_ascii (hex_digit (Z.shiftr u (96 + 4 * 0) mod 16)))
              EmptyString))))))))))).
Proof. reflexivity. Qed.

(** Two uuids get the same order number exactly when their bits 96 to 127
    agree: an order number carries 32 bits of the random source, no more
    and no less. *)
Theorem order_numbers_collide_iff (r r' : Z) :
  generate_order_number (uuid4_int r) = generate_order_number (uuid4_int r')
  <-> number_bits r = number_bits r'.
Proof.
  rewrite <- (uuid4_int_number_bits r), <- (uuid4_int_number_bits r').
  set (u := uuid4_int r). set (v := uuid4_int r'). clearbody u v.
  split.
  - intros E. rewrite !order_number_digits in E.
    injection E as E7 E6 E5 E4 E3 E2 E1 E0.
    apply number_bits_of_nibbles. intros j Hj.
    assert (C : j = 0 \/ j = 1 \/ j = 2 \/ j = 3 \/ j = 4 \/ j = 5 \/ j = 6 \/ j = 7)
      by lia.
    repeat match goal with
           | H : upper_ascii _ = upper_ascii _ |- _ =>
               apply (f_equal unhex) in H; rewrite !unhex_hex_digit in H
           end.
    repeat (destruct C as [C | C]; [subst j; assumption |]).
    subst j; assumption.
  - intros E. rewrite !order_number_digits.
    rewrite !nibble_of_number_bits by lia. rewrite E. reflexivity.
Qed.

End OrderNumberBits.

Module OutcomeFacts.
Import FlushFacts WorkflowFacts LedgerFacts.

Lemma insert_row_Some {C} (violates : list (Row C) -> C -> bool)
    (rs : list (Row C)) (c : C) (w : World) :
  insert_row violates (Some rs) c w
  = let w1 := snd (utcnow w) in
    let w2 := snd (utcnow w1) in
    if violates rs c then (Raise IntegrityError, w2)
    else (Return (next_id rs,
                  rs ++ [mkRow (AbstractTable.mk (next_id rs) (clock w1) (clock w2)) c]),
          w2).
Proof.
  unfold insert_row, and_then. cbn. destruct (violates rs c); reflexivity.
Qed.

Ltac insert_step :=
  unfold and_then; rewrite insert_row_Some; cbv zeta;
  cbn -[order_number_taken insert_row utcnow].

Lemma fill_outcome_run (w : World) :
  fst (fill_with_sample_data w)
  = fill_outcome (store w)
      (OrderNumber.generate_order_number (OrderNumber.uuid4_int (entropy w 0%nat)))
      (OrderNumber.generate_order_number (OrderNumber.uuid4_int (entropy w 1%nat))).
Proof.
  destruct (fill_run w) as (e & d & ->).
  set (a := OrderNumber.generate_order_number _).
  set (b := OrderNumber.generate_order_number _).
  clearbody a b.
  unfold commit, flush, fill_outcome. cbn [new store].
  rewrite sample_pending_suppliers, sample_pending_products,
          sample_pending_orders, sample_pending_items.
  destruct w as [db0 [ts tp to ti] e0 c0 k0 n out fs].
  cbn [store suppliers products orders order_items].
  unfold and_then, order_numbers. cbn [orders rows default].
  destruct ts as [rs |]; [| reflexivity].
  destruct tp as [rp |]; [| reflexivity].
  destruct to as [ro |]; [| reflexivity].
  cbn -[order_number_taken insert_row utcnow].
  do 4 insert_step.
  insert_step.
  unfold order_number_taken at 1. cbn [Order.order_number].
  case_bool_decide; [reflexivity |].
  cbn -[order_number_taken insert_row utcnow].
  insert_step.
  unfold order_number_taken at 1. cbn [Order.order_number].
  rewrite map_app. cbn [map cols Order.order_number].
  case_bool_decide; [reflexivity |].
  cbn -[order_number_taken insert_row utcnow].
  destruct ti as [ri |].
  - do 4 insert_step. reflexivity.
  - unfold and_then, insert_row, and_then. reflexivity.
Qed.


(** A run of the workflow that returns only appends: every table keeps the
    rows it had, in place, and gains one supplier, the three products, two
    orders and four items.  Nothing is looked up first, so a second run
    adds the supplier and the products once more. *)
Theorem fill_appends (w : World) :
  fst (fill_with_sample_data w) = Return tt ->
  let s := store w in
  let s' := store (snd (fill_with_sample_data w)) in
  exists newS newP newO newI,
    rows (suppliers s') = rows (suppliers s) ++ newS /\
    rows (products s') = rows (products s) ++ newP /\
    rows (orders s') = rows (orders s) ++ newO /\
    rows (order_items s') = rows (order_items s) ++ newI /\
    map cols newS = [sample_supplier] /\
    map (fun p => Product.name (cols p)) newP
    = ["Waosa Product A"; "Waosa Product B"; "Waosa Product C"] /\
    map (fun o => Order.customer_name (cols o)) newO
    = ["Alice Johnson"; "Bob Smith"] /\
    map (fun i => OrderItem.quantity (cols i)) newI = [2; 1; 3; 1].
Proof.
  intros H. cbv zeta.
  destruct (fill_run w) as (e & d & E). rewrite E in *. clear E.
  set (w2 := mkWorld _ _ _ _ _ _ _ _) in *.
  set (session := mkSession _ _) in *.
  pose proof (commit_run session w2) as K.
  destruct (commit session w2) as [[x | u] w3]; [discriminate |].
  destruct K as (s' & w1 & L & -> & Fl).
  cbn [snd print store set_stdout set_store].
  subst session. cbn [new] in Fl.
  destruct Fl as [newS sm newP pm newO om newI im t1 t2 t3 I1 I2 I3 I4 RS RP RO RI].
  apply inserted_cols in I1, I2, I3, I4.
  rewrite sample_pending_suppliers in I1.
  rewrite sample_pending_products in I2.
  rewrite sample_pending_orders in I3.
  rewrite sample_pending_items in I4.
  exists newS, newP, newO, newI.
  change (store w2) with (store w) in *.
  do 4 (split; [assumption |]).
  split; [exact I1 |].
  split; [| split].
  - rewrite <- (map_map cols Product.name). rewrite I2. reflexivity.
  - rewrite <- (map_map cols Order.customer_name). rewrite I3. reflexivity.
  - rewrite <- (map_map cols OrderItem.quantity). rewrite I4. reflexivity.
Qed.

(** The theorem on the sample world, once the tables exist. *)
Lemma fill_appends_witness :
  exists newS newP newO newI,
    let w := run float_str_whole [OpCreateTables] sample_world in
    let s := store w in
    let s' := store (snd (fill_with_sample_data w)) in
    rows (suppliers s') = rows (suppliers s) ++ newS /\
    rows (products s') = rows (products s) ++ newP /\
    rows (orders s') = rows (orders s) ++ newO /\
    rows (order_items s') = rows (order_items s) ++ newI /\
    map cols newS = [sample_supplier] /\
    map (fun p => Product.name (cols p)) newP
    = ["Waosa Product A"; "Waosa Product B"; "Waosa Product C"] /\
    map (fun o => Order.customer_name (cols o)) newO
    = ["Alice Johnson"; "Bob Smith"] /\
    map (fun i => OrderItem.quantity (cols i)) newI = [2; 1; 3; 1].
Proof.
  apply (fill_appends (run float_str_whole [OpCreateTables] sample_world)).
  vm_compute. reflexivity.
Defined.

End OutcomeFacts.

(* ===================================================================== *)
(** ** The connection across the operations *)
(* ===================================================================== *)

Module ConnectionFacts.
Import FlushFacts WorkflowFacts.




























Section ConnectionFormatting.
Variable float_str : float -> string.









End ConnectionFormatting.

End ConnectionFacts.

(* ===================================================================== *)
(** ** The listing *)
(* ===================================================================== *)

Module ListingFacts.
Import FlushFacts WorkflowFacts.

Lemma keeps_schema_quiet {A} (m : M A) : quiet m -> keeps_schema m.
Proof. intros Q w H. destruct (Q w) as [-> _]. exact H. Qed.

Lemma keeps_schema_and_then {A B} (m : M A) (k : A -> M B) :
  keeps_schema m -> (forall a, keeps_schema (k a)) -> keeps_schema (and_then m k).
Proof.
  intros Pm Pk w I. unfold and_then. specialize (Pm w I).
  destruct (m w) as [[e | a] w1]; cbn [snd] in *; [exact Pm |].
  apply Pk. exact Pm.
Qed.

Lemma keeps_schema_create_tables : keeps_schema create_tables.
Proof.
  intros w _. destruct (GatewayFacts.create_tables_returns w) as [_ ->].
  right. cbn. repeat split; eexists; reflexivity.
Qed.

(** A flush that went through leaves every table it inserted into. *)
Lemma flush_tables (pending : list Obj) (s s' : Store) (w : World) :
  fst (flush pending s w) = Return s' ->
  (pending_suppliers pending <> [] -> is_Some (suppliers s')) /\
  (pending_products pending <> [] -> is_Some (products s')) /\
  (pending_orders pending <> [] -> is_Some (orders s')) /\
  (pending_items pending <> [] -> is_Some (order_items s')).
Proof.
  unfold flush, and_then.
  repeat match goal with
         | |- context [insert_all ?v ?t ?p ?m ?w] =>
             let E := fresh "E" in
             pose proof (insert_all_Return v p t m w) as E;
             destruct (insert_all v t p m w) as [[? | [? ?]] ?];
             cbn [fst snd] in *; [discriminate |];
             specialize (E _ _ eq_refl);
             destruct E as (? & ? & _ & _ & _ & _ & E)
         end.
  unfold ret. cbn [fst]. intros [= <-]. cbn [suppliers products orders order_items].
  repeat split; intros N.
  - apply E. exact N.
  - apply E0. intros Z. apply N. destruct (pending_products pending); [reflexivity | discriminate].
  - apply E1. exact N.
  - apply E2. intros Z. apply N. destruct (pending_items pending); [reflexivity | discriminate].
Qed.

Lemma keeps_schema_fill : keeps_schema fill_with_sample_data.
Proof.
  intros w I. destruct (fill_run w) as (e & d & ->).
  set (w2 := mkWorld _ _ _ _ _ _ _ _).
  set (session := mkSession _ _).
  pose proof (commit_run session w2) as K.
  pose proof (flush_tables (new session) (store w2)) as T.
  unfold commit in *.
  destruct (flush (new session) (store w2) w2) as [[x | s'] w3] eqn:F;
    cbn [fst snd] in *.
  - destruct K as (_ & -> & _). exact I.
  - specialize (T s' w2). rewrite F in T. specialize (T eq_refl).
    destruct T as (T1 & T2 & T3 & T4). right. cbn.
    repeat split; [apply T1 | apply T2 | apply T3 | apply T4]; discriminate.
Qed.

Section ListingFormatting.
Variable float_str : float -> string.

Lemma keeps_schema_main : keeps_schema (main float_str).
Proof.
  unfold main.
  apply keeps_schema_and_then.
  { apply keeps_schema_quiet. intros w. split; reflexivity. }
  intros _. apply keeps_schema_and_then; [apply keeps_schema_create_tables |].
  intros _. apply keeps_schema_and_then; [apply keeps_schema_fill |].
  intros _. apply keeps_schema_and_then;
    [apply keeps_schema_quiet, quiet_display_orders |].
  intros _. apply keeps_schema_and_then;
    [apply keeps_schema_quiet, quiet_get_all_orders |].
  intros orders. apply keeps_schema_and_then;
    [apply keeps_schema_quiet, quiet_export |].
  intros _. apply keeps_schema_quiet, quiet_print.
Qed.

Lemma keeps_schema_exec (op : Op) : keeps_schema (exec float_str op).
Proof.
  destruct op; cbn [exec].
  - apply keeps_schema_quiet. quiet_steps; apply quiet_connect.
  - apply keeps_schema_quiet. quiet_steps.
  - apply keeps_schema_create_tables.
  - apply keeps_schema_fill.
  - apply keeps_schema_quiet. quiet_steps; apply quiet_get_all_orders.
  - apply keeps_schema_quiet, quiet_display_orders.
  - apply keeps_schema_quiet.
    apply quiet_and_then; [apply quiet_get_all_orders | intros ?; apply quiet_export].
  - apply keeps_schema_main.
Qed.

Lemma reachable_schema (ops : list Op) (e : nat -> Z) (t0 : datetime)
    (k : nat -> N) :
  schema_ok (store (run float_str ops (initial_world e t0 k))).
Proof.
  unfold run.
  assert (H : schema_ok (store (initial_world e t0 k)))
    by (left; repeat split).
  revert H. generalize (initial_world e t0 k).
  induction ops as [| o l IH]; intros w H; [exact H |].
  cbn [foldl]. apply IH. apply keeps_schema_exec. exact H.
Qed.

Lemma product_found (s : Store) (k : Z) :
  k ∈ ids (rows (products s)) -> is_Some (product_name s (Some k)).
Proof.
  unfold product_name, ids. induction (rows (products s)) as [| r l IH]; intros H.
  - inversion H.
  - rewrite filter_cons. destruct (decide (Some (row_id r) = Some k)) as [E | N].
    + cbn. eexists; reflexivity.
    + apply IH. cbn in H. apply elem_of_cons in H. destruct H as [-> | H]; [| exact H].
      exfalso. apply N. reflexivity.
Qed.

Lemma item_lines_Some (s : Store) (items : list (Row OrderItem.t)) :
  Forall (item_resolves s) items -> is_Some (item_lines float_str s items).
Proof.
  induction 1 as [| i l [_ (k & E & Hk)] F IH]; cbn [item_lines].
  - eexists; reflexivity.
  - rewrite E. destruct (product_found s k Hk) as [name ->].
    destruct IH as [lines ->]. eexists; reflexivity.
Qed.

Lemma order_blocks_Some (s : Store) (l : list (Row Order.t)) :
  Forall (item_resolves s) (rows (order_items s)) ->
  is_Some (order_blocks float_str s l).
Proof.
  intros F. induction l as [| o l IH]; cbn [order_blocks].
  - eexists; reflexivity.
  - destruct (item_lines_Some s (items_of s o)) as [lines ->].
    { unfold items_of. rewrite Forall_forall in *. intros i Hi.
      apply list_elem_of_filter in Hi. apply F. tauto. }
    destruct IH as [more ->]. eexists; reflexivity.
Qed.

Lemma display_items_run (items : list (Row OrderItem.t)) :
  forall (w : World) (lines : list string),
    is_Some (products (store w)) ->
    item_lines float_str (store w) items = Some lines ->
    display_items float_str items w
    = (Return tt, set_stdout (stdout w ++ lines) w).
Proof.
  induction items as [| i l IH]; intros w lines [rp Hp] H; cbn [item_lines] in H.
  - injection H as <-. cbn. rewrite app_nil_r. destruct w; reflexivity.
  - cbn [display_items]. unfold and_then, query_product_first, ret.
    unfold product_name in H. rewrite Hp in *.
    change (rows (Some rp)) with rp in H.
    destruct (head (filter _ rp)) as [p |]; [| discriminate].
    destruct (item_lines float_str (store w) l) as [more |] eqn:Em; [| discriminate].
    injection H as <-. cbn [fst snd print].
    rewrite (IH _ more); [| exists rp; exact Hp | exact Em].
    destruct w; cbn. rewrite <- app_assoc. reflexivity.
Qed.

Lemma display_each_run (l : list (Row Order.t)) :
  forall (w : World) (blocks : list string),
    is_Some (products (store w)) -> is_Some (order_items (store w)) ->
    order_blocks float_str (store w) l = Some blocks ->
    exists w',
      display_each float_str l w = (Return tt, w') /\
      store w' = store w /\ stdout w' = stdout w ++ blocks /\
      files w' = files w /\ clock w' = clock w.
Proof.
  induction l as [| o l IH]; intros w blocks Hp Hi H; cbn [order_blocks] in H.
  - injection H as <-. exists w. cbn. rewrite app_nil_r. repeat split.
  - destruct (item_lines float_str (store w) (items_of (store w) o))
      as [lines |] eqn:El; [| discriminate].
    destruct (order_blocks float_str (store w) l) as [more |] eqn:Em;
      [| discriminate].
    injection H as <-.
    cbn [display_each]. unfold and_then at 1 2 3 4. cbn [print fst snd].
    set (w4 := set_stdout _ (set_stdout _ (set_stdout _ (set_stdout _ w)))).
    assert (S4 : store w4 = store w) by reflexivity.
    unfold and_then at 1.
    destruct (get_session_run w4) as (e & d & ->).
    unfold and_then at 1. unfold query_items_by_order.
    cbn [store set_db]. rewrite S4.
    destruct Hi as [ri Hri]. rewrite Hri. unfold ret at 1.
    unfold and_then at 1.
    rewrite (display_items_run _ _ lines).
    2:{ cbn [store set_db]. rewrite S4. exact Hp. }
    2:{ cbn [store set_db]. rewrite S4. unfold items_of in El.
        rewrite Hri in El. exact El. }
    unfold and_then at 1 2. cbn [close ret print fst snd].
    match goal with
    | |- context [display_each float_str l ?w7] =>
        destruct (IH w7 more) as (w' & R & Es & Eo & Ef & Ec)
    end.
    + exact Hp.
    + exists ri. exact Hri.
    + exact Em.
    + exists w'. split; [exact R |]. rewrite Es, Eo, Ef, Ec. cbn.
      repeat split. rewrite <- !app_assoc. reflexivity.
Qed.

(** What [display_orders] does in a world whose items all resolve and
    whose tables exist together or not at all. *)
Lemma display_orders_run (w : World) :
  Forall (item_resolves (store w)) (rows (order_items (store w))) ->
  schema_ok (store w) ->
  match orders (store w) with
  | Some _ =>
      exists lines w',
        listing float_str (store w) = Some lines /\
        display_orders float_str w = (Return tt, w') /\
        store w' = store w /\ stdout w' = stdout w ++ lines /\
        files w' = files w
  | None =>
      fst (display_orders float_str w) = Raise OperationalError /\
      stdout (snd (display_orders float_str w)) = stdout w
  end.
Proof.
  intros Res Sc.
  remember (display_orders float_str w) as after eqn:Ea.
  unfold display_orders, and_then at 1, get_all_orders, and_then at 1 in Ea.
  destruct (get_session_run w) as (en & d & G). rewrite G in Ea.
  unfold and_then at 1, query_orders in Ea. cbn [store set_db] in Ea.
  destruct (orders (store w)) as [ro |] eqn:Eo.
  - destruct Sc as [(_ & _ & Z & _) | (_ & Hp & _ & Hi)]; [congruence |].
    unfold ret at 1 in Ea. unfold and_then at 1 in Ea.
    cbn [close ret fst snd] in Ea.
    unfold and_then at 1 in Ea. cbn [print fst snd] in Ea.
    destruct (order_blocks_Some (store w) ro Res) as [blocks Eb].
    match type of Ea with
    | context [display_each float_str ro ?w2] =>
        destruct (display_each_run ro w2 blocks) as (w' & R & Es & Es' & Ef & _);
          [exact Hp | exact Hi | exact Eb |]
    end.
    rewrite R in Ea. subst after.
    exists ((newline +:+ "СПИСОК ЗАКАЗОВ:") :: blocks), w'.
    unfold listing. rewrite Eo. change (rows (Some ro)) with ro. rewrite Eb.
    split; [reflexivity |]. split; [reflexivity |].
    split; [exact Es |]. split; [| exact Ef].
    rewrite Es'. cbn. rewrite <- app_assoc. reflexivity.
  - subst after. cbn. split; reflexivity.
Qed.

(** In every world the program reaches, [display_orders] prints the
    listing of the store and returns: the heading, then for each order its
    number, customer, amount and status, a line for each of its items with
    the product's name, and an empty line.  No item lacks its product, so
    the listing never fails on one; it raises only when the tables do not
    exist, and then prints nothing.  The store is not changed. *)
Theorem display_orders_listing (ops : list Op) (e : nat -> Z)
    (t0 : datetime) (k : nat -> N) :
  let w := run float_str ops (initial_world e t0 k) in
  let after := display_orders float_str w in
  store (snd after) = store w /\
  match orders (store w) with
  | Some _ =>
      exists lines,
        listing float_str (store w) = Some lines /\
        fst after = Return tt /\ stdout (snd after) = stdout w ++ lines
  | None => fst after = Raise OperationalError /\ stdout (snd after) = stdout w
  end.
Proof.
  cbv zeta.
  pose proof (reachable_schema ops e t0 k) as Sc.
  destruct (reachable_inv float_str ops e t0 k) as [Inv _].
  pose proof (display_orders_run _ (inv_resolves _ Inv) Sc) as D.
  split; [apply quiet_display_orders |].
  destruct (orders (store (run float_str ops (initial_world e t0 k)))).
  - destruct D as (lines & w' & L & -> & _ & Eo & _).
    exists lines. auto.
  - exact D.
Qed.

End ListingFormatting.

(** What [main] prints on the sample world. *)
Example listing_after_main :
  stdout ReportFacts.after_main
  = [ "Данные из Waosa Club добавлены";
      newline +:+ "СПИСОК ЗАКАЗОВ:";
      "Заказ ORD-1234ABCD:"; "  Клиент: Alice Johnson"; "  Сумма: $400.0";
      "  Статус: completed";
      "    - Waosa Product A: 2 x $100.0"; "    - Waosa Product B: 1 x $200.0";
      "";
      "Заказ ORD-DEADBEEF:"; "  Клиент: Bob Smith"; "  Сумма: $550.0";
      "  Статус: completed";
      "    - Waosa Product C: 3 x $150.0"; "    - Waosa Product A: 1 x $100.0";
      "";
      "Файл orders.odt создан"; "Готово!" ].
Proof. vm_compute. reflexivity. Qed.

End ListingFacts.

(* ===================================================================== *)
(** ** The whole program *)
(* ===================================================================== *)

Module MainFacts.
Import FlushFacts WorkflowFacts LedgerFacts OutcomeFacts ListingFacts.

(** What the workflow leaves of the output and the files. *)
Lemma fill_frame (w : World) :
  files (snd (fill_with_sample_data w)) = files w /\
  stdout (snd (fill_with_sample_data w))
  = match fst (fill_with_sample_data w) with
    | Return _ => stdout w ++ ["Данные из Waosa Club добавлены"]
    | Raise _ => stdout w
    end.
Proof.
  destruct (fill_run w) as (e & d & ->).
  set (w2 := mkWorld _ _ _ _ _ _ _ _).
  set (session := mkSession _ _).
  pose proof (commit_run session w2) as K.
  destruct (commit session w2) as [[x | u] w3]; cbn [fst snd].
  - destruct K as (_ & _ & _ & _ & Eo & Ef & _). rewrite Eo, Ef. split; reflexivity.
  - destruct K as (s' & w1 & (_ & _ & _ & _ & Eo & Ef & _) & -> & _).
    cbn. rewrite Eo, Ef. split; reflexivity.
Qed.

Lemma get_all_orders_full (w : World) :
  exists d,
    get_all_orders w
    = (match orders (store w) with
       | Some rs => Return rs
       | None => Raise OperationalError
       end, set_db d w).
Proof.
  unfold get_all_orders, and_then.
  destruct (get_session_run w) as (e & d & ->). exists d.
  unfold query_orders. cbn. destruct (orders (store w)); reflexivity.
Qed.

Lemma foldl_export_order_blocks (float_str : float -> string)
    (orders : list (Row Order.t)) (doc : document) :
  foldl (export_order float_str) doc orders
  = doc ++ flat_map (order_block float_str) orders.
Proof.
  revert doc. induction orders as [| o l IH]; intros doc.
  - cbn. rewrite app_nil_r. reflexivity.
  - cbn [foldl flat_map]. rewrite IH. unfold export_order, order_block, addText.
    cbn [texts app]. rewrite <- !app_assoc. reflexivity.
Qed.

Section MainFormatting.
Variable float_str : float -> string.

(** What [main] does after the workflow. *)
Definition main_rest : M unit :=
  let* _ := display_orders float_str in
  let* orders := get_all_orders in
  let* _ := export_orders_to_odt float_str orders default_filename in
  print "Готово!".

Lemma main_rest_run (w : World) (ro : list (Row Order.t)) :
  Forall (item_resolves (store w)) (rows (order_items (store w))) ->
  schema_ok (store w) ->
  orders (store w) = Some ro ->
  exists lines w',
    main_rest w = (Return tt, w') /\
    store w' = store w /\
    listing float_str (store w) = Some lines /\
    stdout w'
    = stdout w ++ lines ++ ["Файл " +:+ default_filename +:+ " создан"; "Готово!"] /\
    files w' !! default_filename
    = Some (report_header ++ flat_map (order_block float_str) ro).
Proof.
  intros Res Sc Ero.
  pose proof (display_orders_run float_str w Res Sc) as D.
  rewrite Ero in D. destruct D as (lines & w3 & L & D & Es3 & Eo3 & Ef3).
  destruct (get_all_orders_full w3) as (d & G).
  rewrite Es3, Ero in G.
  exists lines.
  eexists. split.
  - unfold main_rest, and_then at 1. rewrite D.
    unfold and_then at 1. rewrite G.
    unfold and_then at 1, export_orders_to_odt, and_then, save, print.
    cbn [fst snd]. reflexivity.
  - cbn [store set_stdout set_files set_db files stdout].
    split; [exact Es3 |]. split; [exact L |]. split.
    + rewrite Eo3. rewrite <- !(app_assoc (stdout w)).
      rewrite <- (app_assoc lines). reflexivity.
    + rewrite lookup_insert_eq, foldl_export_order_blocks. reflexivity.
Qed.

(** The workflow followed by the rest of [main], in any world that has the
    four tables, empty, and satisfies the invariant. *)
Lemma fill_then_rest (w : World) :
  world_inv w ->
  store w = create_all empty_store ->
  let a := OrderNumber.generate_order_number
             (OrderNumber.uuid4_int (entropy w 0%nat)) in
  let b := OrderNumber.generate_order_number
             (OrderNumber.uuid4_int (entropy w 1%nat)) in
  let after := (let* _ := fill_with_sample_data in main_rest) w in
  (a <> b ->
   fst after = Return tt /\
   sample_orders_created (create_all empty_store) (store (snd after)) /\
   files (snd after) !! default_filename
   = Some (report_header
           ++ flat_map (order_block float_str) (rows (orders (store (snd after))))) /\
   exists lines,
     listing float_str (store (snd after)) = Some lines /\
     stdout (snd after)
     = stdout w ++ ["Данные из Waosa Club добавлены"] ++ lines
       ++ ["Файл " +:+ default_filename +:+ " создан"; "Готово!"]) /\
  (a = b ->
   fst after = Raise IntegrityError /\
   store (snd after) = create_all empty_store /\
   stdout (snd after) = stdout w /\ files (snd after) = files w).
Proof.
  intros I1 Es1. cbv zeta.
  assert (S1 : schema_ok (store w)).
  { rewrite Es1. right. cbn. repeat split; eexists; reflexivity. }
  pose proof (fill_outcome_run w) as O.
  pose proof (fill_frame w) as [Ff Fo].
  pose proof (preserves_fill w I1) as I2.
  pose proof (keeps_schema_fill w S1) as S2.
  pose proof (fill_returns_shape w I1) as Sh.
  pose proof (fill_raises w) as Fr.
  unfold fill_outcome in O. rewrite Es1 in O, Sh.
  cbn [create_all suppliers products orders order_items empty_store rows
       default order_numbers map app] in O.
  set (a := OrderNumber.generate_order_number (OrderNumber.uuid4_int (entropy w 0%nat))) in *.
  set (b := OrderNumber.generate_order_number (OrderNumber.uuid4_int (entropy w 1%nat))) in *.
  clearbody a b.
  remember ((let* _ := fill_with_sample_data in main_rest) w) as after eqn:Ea.
  unfold and_then at 1 in Ea.
  destruct (fill_with_sample_data w) as [r w2]. cbn [fst snd] in *.
  rewrite bool_decide_eq_false_2 in O by (intros Z; inversion Z).
  split.
  - intros Hne.
    rewrite bool_decide_eq_false_2 in O.
    2:{ intros Z. apply list_elem_of_singleton in Z. apply Hne. symmetry. exact Z. }
    subst r. specialize (Sh eq_refl).
    destruct I2 as [Inv2 _].
    assert (Eo : is_Some (orders (store w2))).
    { destruct Sh as (pa & pb & pc & o1 & o2 & _ & _ & Ro & _).
      destruct (orders (store w2)); [eexists; reflexivity |].
      unfold rows in Ro. cbn in Ro. discriminate Ro. }
    destruct Eo as [ro Ero].
    destruct (main_rest_run w2 ro (inv_resolves _ Inv2) S2 Ero)
      as (lines & w' & R & Es' & L & Eo' & Ef').
    rewrite R in Ea. subst after. cbn [fst snd].
    rewrite Es', Ero. change (rows (Some ro)) with ro.
    split; [reflexivity |]. split; [exact Sh |]. split; [exact Ef' |].
    exists lines. split; [exact L |].
    rewrite Eo', Fo, <- app_assoc. reflexivity.
  - intros Heq.
    rewrite bool_decide_eq_true_2 in O
      by (apply list_elem_of_singleton; symmetry; exact Heq).
    subst r after. cbn [fst snd].
    destruct (Fr _ eq_refl) as [Es _].
    rewrite Es, Fo, Ff, Es1. repeat split.
Qed.

(** [main] on a database without tables.  When the two order numbers drawn
    differ it returns: the store holds the sample (the catalog and the two
    orders with their items and totals), the report of these orders is
    saved under [orders.odt], and the output is the workflow's message, the
    listing, and the two closing messages.  When the numbers are equal it
    raises [IntegrityError]: the tables exist and are empty, nothing was
    printed and no file was written. *)
Theorem main_on_fresh_database (e : nat -> Z) (t0 : datetime) (k : nat -> N) :
  let a := OrderNumber.generate_order_number (OrderNumber.uuid4_int (e 0%nat)) in
  let b := OrderNumber.generate_order_number (OrderNumber.uuid4_int (e 1%nat)) in
  let after := main float_str (initial_world e t0 k) in
  (a <> b ->
   fst after = Return tt /\
   sample_orders_created (create_all empty_store) (store (snd after)) /\
   files (snd after) !! default_filename
   = Some (report_header
           ++ flat_map (order_block float_str) (rows (orders (store (snd after))))) /\
   exists lines,
     listing float_str (store (snd after)) = Some lines /\
     stdout (snd after)
     = ["Данные из Waosa Club добавлены"] ++ lines
       ++ ["Файл " +:+ default_filename +:+ " создан"; "Готово!"]) /\
  (a = b ->
   fst after = Raise IntegrityError /\
   store (snd after) = create_all empty_store /\
   stdout (snd after) = [] /\ files (snd after) = ∅).
Proof.
  cbv zeta.
  set (w1 := mkWorld (connected_db waosa_url) (create_all empty_store) e t0 k
                     O [] ∅).
  assert (Em : main float_str (initial_world e t0 k)
               = (let* _ := fill_with_sample_data in main_rest) w1)
    by reflexivity.
  assert (I1 : world_inv w1).
  { change w1 with (snd (create_tables (initial_world e t0 k))).
    apply preserves_create_tables, world_inv_initial. }
  rewrite Em.
  exact (fill_then_rest w1 I1 eq_refl).
Qed.

End MainFormatting.

End MainFacts.

(* ===================================================================== *)
(** ** Induction over the runs of the program *)
(* ===================================================================== *)

Module RunFacts.
Import FlushFacts WorkflowFacts LedgerFacts.

Section RunInduction.
(** A property of stores that creating the tables keeps, and that the
    workflow keeps in a world satisfying the invariant. *)
Variable P : Store -> Prop.
Hypothesis P_create_all : forall s, P s -> P (create_all s).
Hypothesis P_fill :
  forall w, world_inv w -> P (store w) ->
            P (store (snd (fill_with_sample_data w))).

Definition keeps {A} (m : M A) : Prop :=
  forall w, world_inv w -> P (store w) -> P (store (snd (m w))).

Lemma keeps_quiet {A} (m : M A) : quiet m -> keeps m.
Proof. intros Q w _ H. destruct (Q w) as [-> _]. exact H. Qed.

Lemma keeps_seq {A B} (m : M A) (k : A -> M B) :
  preserves m -> keeps m -> (forall a, keeps (k a)) -> keeps (and_then m k).
Proof.
  intros Pm Km Kk w I H. unfold and_then.
  specialize (Pm w I). specialize (Km w I H).
  destruct (m w) as [[e | a] w1]; cbn [snd] in *; [exact Km |].
  apply Kk; assumption.
Qed.

Lemma keeps_create_tables : keeps create_tables.
Proof.
  intros w _ H. destruct (GatewayFacts.create_tables_returns w) as [_ ->].
  apply P_create_all. exact H.
Qed.

Variable float_str : float -> string.

Lemma keeps_main : keeps (main float_str).
Proof.
  unfold main.
  assert (Q0 : quiet (fun w : World =>
            (Return tt, set_db (DatabaseConnection_init "sqlite:///waosa.db") w)))
    by (intros w; split; reflexivity).
  apply keeps_seq; [apply quiet_preserves, Q0 | apply keeps_quiet, Q0 |].
  intros _. apply keeps_seq;
    [apply preserves_create_tables | apply keeps_create_tables |].
  intros _. apply keeps_seq; [apply preserves_fill | exact P_fill |].
  intros _. apply keeps_seq;
    [apply quiet_preserves, quiet_display_orders
    | apply keeps_quiet, quiet_display_orders |].
  intros _. apply keeps_seq;
    [apply quiet_preserves, quiet_get_all_orders
    | apply keeps_quiet, quiet_get_all_orders |].
  intros orders. apply keeps_seq;
    [apply quiet_preserves, quiet_export | apply keeps_quiet, quiet_export |].
  intros _. apply keeps_quiet, quiet_print.
Qed.

Lemma keeps_exec (op : Op) : keeps (exec float_str op).
Proof.
  destruct op; cbn [exec].
  - apply keeps_quiet. quiet_steps; apply quiet_connect.
  - apply keeps_quiet. quiet_steps.
  - apply keeps_create_tables.
  - exact P_fill.
  - apply keeps_quiet. quiet_steps; apply quiet_get_all_orders.
  - apply keeps_quiet, quiet_display_orders.
  - apply keeps_quiet.
    apply quiet_and_then; [apply quiet_get_all_orders | intros ?; apply quiet_export].
  - apply keeps_main.
Qed.

Lemma run_induction (ops : list Op) (e : nat -> Z) (t0 : datetime)
    (k : nat -> N) :
  P empty_store -> P (store (run float_str ops (initial_world e t0 k))).
Proof.
  intros H0. unfold run.
  assert (H : world_inv (initial_world e t0 k) /\ P (store (initial_world e t0 k)))
    by (split; [apply world_inv_initial | exact H0]).
  revert H. generalize (initial_world e t0 k).
  induction ops as [| o l IH]; intros w [I H]; [exact H |].
  cbn [foldl]. apply IH. split.
  - apply preserves_exec. exact I.
  - apply keeps_exec; assumption.
Qed.

End RunInduction.

(** The orders a run of the workflow that returns has added, and what it
    leaves of the items of the orders that were there. *)
Lemma fill_returns_orders (w : World) :
  world_inv w ->
  fst (fill_with_sample_data w) = Return tt ->
  let s := store w in
  let s' := store (snd (fill_with_sample_data w)) in
  exists o1 o2,
    rows (orders s') = rows (orders s) ++ [o1; o2] /\
    Order.order_number (cols o1)
    = OrderNumber.generate_order_number (OrderNumber.uuid4_int (entropy w 0%nat)) /\
    Order.order_number (cols o2)
    = OrderNumber.generate_order_number (OrderNumber.uuid4_int (entropy w 1%nat)) /\
    Order.status (cols o1) = "completed" /\
    Order.status (cols o2) = "completed" /\
    length (items_of s' o1) = 2%nat /\
    length (items_of s' o2) = 2%nat /\
    Forall (fun o => items_of s' o = items_of s o) (rows (orders s)).
Proof.
  intros [Inv Fc] H. cbv zeta.
  destruct (fill_run w) as (e & d & E). rewrite E in *. clear E.
  set (w2 := mkWorld _ _ _ _ _ _ _ _) in *.
  set (session := mkSession _ _) in *.
  pose proof (commit_run session w2) as K.
  destruct (commit session w2) as [[x | u] w3]; [discriminate |].
  destruct K as (s' & w1 & L & -> & Fl). cbn [snd print store set_stdout set_store].
  subst session. cbn [new] in Fl.
  set (n := next_ref w) in *.
  set (a := OrderNumber.generate_order_number _) in *.
  set (b := OrderNumber.generate_order_number _) in *.
  clearbody n.
  destruct Fl as [newS sm newP pm newO om newI im t1 t2 t3 I1 I2 I3 I4 RS RP RO RI].
  rewrite sample_pending_suppliers in I1.
  rewrite sample_pending_products in I2.
  rewrite sample_pending_orders in I3.
  rewrite sample_pending_items in I4.
  clear H L. subst w2. cbn [store clock] in *.
  invert_inserted I1. cbn [map link_product fst snd ref attrs] in I2.
  invert_inserted I2. invert_inserted I3.
  cbn [map link_item fst snd ref attrs] in I4.
  invert_inserted I4.
  revert RS RP RO RI. simpl_ids. intros RS RP RO RI.
  set (kO := next_id (rows (orders (store w)))) in *.
  set (kP := next_id (rows (products (store w)))) in *.
  assert (Old : Forall (fun i => forall k, OrderItem.order_id (cols i) = Some k -> k < kO)
                       (rows (order_items (store w)))).
  { eapply Forall_impl; [exact (inv_resolves _ Inv) |]. cbn.
    intros i [(k & Ek & Hk) _] k' Ek'. rewrite Ek in Ek'. injection Ek' as <-.
    pose proof (next_id_above (rows (orders (store w)))) as A.
    rewrite Forall_forall in A. apply A. exact Hk. }
  assert (OldO : Forall (fun o => row_id o < kO) (rows (orders (store w)))).
  { pose proof (next_id_above (rows (orders (store w)))) as A.
    unfold ids in A. rewrite Forall_map in A. exact A. }
  clearbody kO kP.
  do 2 eexists.
  split; [exact RO |].
  do 4 (split; [reflexivity |]).
  unfold items_of. rewrite RI.
  cbn [row_id base AbstractTable.id cols attrs lookup_ref OrderItem.set_keys].
  cbn [Nat.add]. decide_refs.
  split; [| split].
  - rewrite filter_app, (filter_none _ (rows (order_items (store w)))).
    2:{ eapply Forall_impl; [exact Old |]. cbn. intros i Hi Ei.
        specialize (Hi _ Ei). lia. }
    rewrite !filter_cons, !filter_nil. cbn [cols OrderItem.order_id OrderItem.set_keys].
    repeat case_decide;
      try (exfalso; congruence); try (exfalso; simplify_eq; lia).
    reflexivity.
  - rewrite filter_app, (filter_none _ (rows (order_items (store w)))).
    2:{ eapply Forall_impl; [exact Old |]. cbn. intros i Hi Ei.
        specialize (Hi _ Ei). lia. }
    rewrite !filter_cons, !filter_nil. cbn [cols OrderItem.order_id OrderItem.set_keys].
    repeat case_decide;
      try (exfalso; congruence); try (exfalso; simplify_eq; lia).
    reflexivity.
  - eapply Forall_impl; [exact OldO |]. cbn. intros o Ho.
    rewrite filter_app, !filter_cons, !filter_nil. cbn [cols OrderItem.order_id OrderItem.set_keys].
    repeat case_decide; try (exfalso; simplify_eq; lia).
    apply app_nil_r.
Qed.

Lemma create_all_items_of (s : Store) (o : Row Order.t) :
  items_of (create_all s) o = items_of s o.
Proof. reflexivity. Qed.

Section WellFormed.
Variable float_str : float -> string.

(** In every world the program reaches, each persisted order has a number
    of the pattern [ORD-[0-9A-F]{8}], the status [completed], and exactly
    two line items: no order is persisted without items. *)
Theorem persisted_orders_well_formed (ops : list Op) (e : nat -> Z)
    (t0 : datetime) (k : nat -> N) :
  let s := store (run float_str ops (initial_world e t0 k)) in
  Forall (order_well_formed s) (rows (orders s)).
Proof.
  cbv zeta.
  apply (run_induction
           (fun s => Forall (order_well_formed s) (rows (orders s)))).
  - intros s H. exact H.
  - intros w I H.
    destruct (fst (fill_with_sample_data w)) as [x | []] eqn:F.
    + destruct (fill_raises w x F) as [-> _]. exact H.
    + destruct (fill_returns_orders w I F)
        as (o1 & o2 & Ro & N1 & N2 & S1 & S2 & L1 & L2 & Old).
      rewrite Ro. apply Forall_app. split.
      * rewrite Forall_forall in *. intros o Ho.
        destruct (H o Ho) as (Hn & Hs & Hl).
        repeat split; [exact Hn | exact Hs |]. rewrite (Old o Ho). exact Hl.
      * assert (G : forall u, OrderNumber.fullmatch OrderNumber.ORD_pattern
                                (OrderNumber.generate_order_number u) = true).
        { intros u. unfold OrderNumber.generate_order_number,
            OrderNumber.ORD_pattern, OrderNumber.hex.
          cbn [String.append app OrderNumber.fullmatch OrderNumber.lit].
          change (OrderNumber.fullmatch (replicate 8 OrderNumber.upper_hex)
                    (OrderNumber.upper
                       (OrderNumber.prefix 8 (OrderNumber.hex_digits 32 u))) = true).
          apply OrderNumberFacts.hex_prefix_upper_hex. lia. }
        repeat constructor; rewrite ?N1, ?N2; auto.
  - constructor.
Qed.

End WellFormed.

End RunFacts.

(* ===================================================================== *)
(** ** The loops of the workflow, on any order data *)
(* ===================================================================== *)

Module LoopFacts.
Import WorkflowFacts.


Lemma item_totals_app (l k : list Obj) :
  item_totals (l ++ k) = item_totals l ++ item_totals k.
Proof.
  unfold item_totals, pending_items. rewrite omap_app, map_app. reflexivity.
Qed.



(** A quantity beyond the range of a float makes the loop raise. *)
Example create_order_items_overflow :
  fst (create_order_items 7%nat
         [OrdersData.mkItem (mkInstance 1%nat product_A) (2 ^ 1024)]
         0%float (mkSession (create_engine waosa_url) []) sample_world)
  = Raise OverflowError.
Proof. vm_compute. reflexivity. Qed.

End LoopFacts.
